(** * sandbox-sdk: a shallow embedding of the sandbox manager and its runners

    The development follows the Python package [sandbox]:
    - [sandbox/_utils.py]            ([encode_inputs], [decode_result_from_stdout]),
    - [sandbox/manager.py]           ([Sandbox] and its script builders),
    - [sandbox/runners/subprocess.py] and [sandbox/runners/docker.py].

    Python [str] values are modelled by [string]; one [ascii] stands for one
    character (a code point below 256).  Dictionaries whose iteration order
    is observable ([Dependencies], decoded JSON objects) are association
    lists in insertion order; environment maps and allow-lists, whose order
    is never observed, are [gmap string string] and [gset string].

    A call either returns or raises; an [except] clause is a test of the
    exception's class against the class hierarchy.  What the operating
    system, the container daemon and the interpreter's [json] module answer
    is not fixed: the first two are a [Host], the last two variables
    [json_dumps] and [json_loads]. *)

From Stdlib Require Import ZArith List Ascii String Bool Lia DecimalString.
From stdpp Require Import base gmap sets strings.
Import ListNotations.
Open Scope string_scope.

#[local] Arguments String.append _ _ : simpl nomatch.
#[local] Set Warnings "-register-all,-clear-no-such-hyp".

(** ** Python string primitives used by the package *)

Module PyStr.

Definition nl : string := String "010"%char "".
Definition dq : string := String "034"%char "".

(** Source text is quoted with a backquote standing for the double quote:
    [q] puts the double quotes back. *)
Fixpoint q (s : string) : string :=
  match s with
  | "" => ""
  | String c s' =>
      String (if Ascii.eqb c "`"%char then "034"%char else c) (q s')
  end.

(** [str.isspace] on the code points below 256. *)
Definition isspace (c : ascii) : bool :=
  let n := nat_of_ascii c in
  (Nat.leb 9 n && Nat.leb n 13) || (Nat.leb 28 n && Nat.leb n 32)
  || Nat.eqb n 133 || Nat.eqb n 160.

Fixpoint lstrip (s : string) : string :=
  match s with
  | "" => ""
  | String c s' => if isspace c then lstrip s' else s
  end.

Fixpoint rstrip (s : string) : string :=
  match s with
  | "" => ""
  | String c s' =>
      match rstrip s' with
      | "" => if isspace c then "" else String c ""
      | r => String c r
      end
  end.

(** [s.strip()] *)
Definition strip (s : string) : string := rstrip (lstrip s).

(** Truth value of a [str]: non-empty. *)
Definition truthy (s : string) : bool :=
  match s with "" => false | _ => true end.

(** Truth value of [d.get(key)] when the value is [None] or a [str]. *)
Definition truthy_opt (o : option string) : bool :=
  match o with None => false | Some s => truthy s end.

(** [needle in hay] *)
Fixpoint contains (needle hay : string) : bool :=
  if String.prefix needle hay then true
  else match hay with
       | "" => false
       | String _ hay' => contains needle hay'
       end.

(** [s[:n]] *)
Definition slice_to (n : nat) (s : string) : string := String.substring 0 n s.

(** [str(i)] for an [int]. *)
Definition of_Z (z : Z) : string := NilZero.string_of_int (Z.to_int z).

(** [sep.join(l)] *)
Definition join (sep : string) (l : list string) : string := String.concat sep l.

(** Every line followed by a newline, as in a dedented triple-quoted
    template that ends on a line of its own. *)
Definition unlines (l : list string) : string :=
  String.concat "" (map (fun s => s +:+ nl) l).

End PyStr.

(** ** Python values that cross the JSON boundary *)

(** [PFloat] carries a float by its [repr] text: the package only prints and
    forwards floats.  [PObject] is any value [json.dumps] rejects, carried by
    its type name; [PDict] lists the items in insertion order. *)
Inductive pyval : Type :=
| PNone
| PBool (b : bool)
| PInt (z : Z)
| PFloat (repr : string)
| PStr (s : string)
| PList (l : list pyval)
| PDict (d : list (string * pyval))
| PObject (type_name : string).

(** [type(v).__name__] *)
Definition type_name_of (v : pyval) : string :=
  match v with
  | PNone => "NoneType"
  | PBool _ => "bool"
  | PInt _ => "int"
  | PFloat _ => "float"
  | PStr _ => "str"
  | PList _ => "list"
  | PDict _ => "dict"
  | PObject n => n
  end.

(** Exception classes: the classes the package raises or names in an
    [except] clause, and the classes those derive from.  [Subclass name
    base] is any other class, derived from [base]. *)
Inductive exn_class : Type :=
| BaseException
| Exception
| KeyboardInterrupt
| SystemExit
| ValueError
| TypeError
| ImportError
| OSError
| FileNotFoundError
| RuntimeError
| RecursionError
| SubprocessError
| TimeoutExpired
| DockerException
| APIError
| NotFound
| ImageNotFound
| Subclass (name : string) (base : exn_class).

(** The classes a class derives from, nearest first.  [APIError] of the
    docker package derives from [DockerException] and from the HTTP error
    of the requests package, which is an [OSError]. *)
Fixpoint ancestors (c : exn_class) : list exn_class :=
  match c with
  | BaseException => []
  | Exception | KeyboardInterrupt | SystemExit => [BaseException]
  | ValueError | TypeError | ImportError | OSError | RuntimeError
  | SubprocessError | DockerException => [Exception; BaseException]
  | FileNotFoundError => [OSError; Exception; BaseException]
  | RecursionError => [RuntimeError; Exception; BaseException]
  | TimeoutExpired => [SubprocessError; Exception; BaseException]
  | APIError => [DockerException; OSError; Exception; BaseException]
  | NotFound => [APIError; DockerException; OSError; Exception; BaseException]
  | ImageNotFound =>
      [NotFound; APIError; DockerException; OSError; Exception; BaseException]
  | Subclass _ base => base :: ancestors base
  end.

Fixpoint class_eqb (c d : exn_class) : bool :=
  match c, d with
  | BaseException, BaseException | Exception, Exception
  | KeyboardInterrupt, KeyboardInterrupt | SystemExit, SystemExit
  | ValueError, ValueError | TypeError, TypeError | ImportError, ImportError
  | OSError, OSError | FileNotFoundError, FileNotFoundError
  | RuntimeError, RuntimeError | RecursionError, RecursionError
  | SubprocessError, SubprocessError | TimeoutExpired, TimeoutExpired
  | DockerException, DockerException | APIError, APIError
  | NotFound, NotFound | ImageNotFound, ImageNotFound => true
  | Subclass n b, Subclass n' b' => String.eqb n n' && class_eqb b b'
  | _, _ => false
  end.

(** [issubclass(c, d)] *)
Definition issubclass (c d : exn_class) : bool :=
  existsb (class_eqb d) (c :: ancestors c).

(** An exception: its class and [str(e)]. *)
Record exn : Type := Exn { exn_cls : exn_class; exn_msg : string }.

(** [isinstance(e, c)], the test of a clause [except c]. *)
Definition isinstance (e : exn) (c : exn_class) : bool :=
  issubclass (exn_cls e) c.

(** What a call does: return a value or raise. *)
Inductive outcome (A : Type) : Type :=
| Returns (a : A)
| Raises (e : exn).
Arguments Returns {A} a.
Arguments Raises {A} e.

Definition bind {A B : Type} (m : outcome A) (k : A -> outcome B) : outcome B :=
  match m with
  | Returns a => k a
  | Raises e => Raises e
  end.

Notation "'let*' x ':=' m 'in' k" := (bind m (fun x => k))
  (at level 10, x pattern, m at level 100, k at level 200, only parsing).

(** [dict] operations on an insertion-ordered association list. *)
Module PyDict.
Section Dict.
Context {V : Type}.

Fixpoint get (k : string) (d : list (string * V)) : option V :=
  match d with
  | [] => None
  | (k', v) :: d' => if String.eqb k k' then Some v else get k d'
  end.

Definition mem (k : string) (d : list (string * V)) : bool :=
  match get k d with Some _ => true | None => false end.

(** [d[k] = v]: an existing key keeps its position. *)
Fixpoint set (k : string) (v : V) (d : list (string * V)) : list (string * V) :=
  match d with
  | [] => [(k, v)]
  | (k', v') :: d' =>
      if String.eqb k k' then (k, v) :: d' else (k', v') :: set k v d'
  end.
End Dict.
End PyDict.

(** ** The [json] module of the Python standard library

    What [json.dumps] and [json.loads] do belongs to the interpreter: the
    package is verified for every behaviour of the two (they are variables
    of the development).  This module gives a reference for them,
    [dumps] after [json.dumps(obj, ensure_ascii=False)] and [loads] after
    [json.loads] (the C scanner's grammar and its [JSONDecodeError.msg]
    texts, CPython 3.10 to 3.12), on the fragment where the answer does not
    depend on the interpreter's limits: integers of at most [max_digits]
    digits, nesting of at most [max_depth] levels, no float literal and no
    escape above U+00FF in a text to decode.  Outside the fragment the
    reference gives no answer. *)

Module Json.
Import PyStr.

(** The default limit of the interpreter on the digits of an integer it
    converts, and a nesting depth that the default recursion limit
    allows. *)
Definition max_digits : nat := 4300.
Definition max_depth : nat := 64.

Definition hex_digit (n : nat) : ascii :=
  ascii_of_nat (if Nat.ltb n 10 then 48 + n else 87 + n).

(** One character of a string literal, escaped as [json.dumps] does when
    [ensure_ascii] is false. *)
Definition escape_char (c : ascii) : string :=
  let n := nat_of_ascii c in
  if Nat.eqb n 34 then "\" +:+ dq
  else if Nat.eqb n 92 then "\\"
  else if Nat.eqb n 10 then "\n"
  else if Nat.eqb n 13 then "\r"
  else if Nat.eqb n 9 then "\t"
  else if Nat.eqb n 12 then "\f"
  else if Nat.eqb n 8 then "\b"
  else if Nat.ltb n 32 then
    "\u00" +:+ String (hex_digit (n / 16)) (String (hex_digit (n mod 16)) "")
  else String c "".

Fixpoint escape (s : string) : string :=
  match s with
  | "" => ""
  | String c s' => escape_char c +:+ escape s'
  end.

Definition dumps_str (s : string) : string := dq +:+ escape s +:+ dq.

(** A float, given by its [repr]: the encoder writes the [repr], except for
    the three values that have none in JSON. *)
Definition dumps_float (repr : string) : string :=
  if String.eqb repr "nan" then "NaN"
  else if String.eqb repr "inf" then "Infinity"
  else if String.eqb repr "-inf" then "-Infinity"
  else repr.

Definition not_serializable (type_name : string) : exn :=
  Exn TypeError ("Object of type " +:+ type_name +:+ " is not JSON serializable").

(** [json.dumps(v, ensure_ascii=False)] with [depth] levels of nesting
    left: items separated by [", "], keys by [": "]; a value outside the
    JSON types raises [TypeError].  The items are encoded from left to
    right, so the first one that raises or leaves the fragment decides. *)
Fixpoint dumps_at (depth : nat) (v : pyval) : option (outcome string) :=
  match v with
  | PNone => Some (Returns "null")
  | PBool true => Some (Returns "true")
  | PBool false => Some (Returns "false")
  | PInt z =>
      if Nat.ltb max_digits (String.length (of_Z z)) then None
      else Some (Returns (of_Z z))
  | PFloat r => Some (Returns (dumps_float r))
  | PStr s => Some (Returns (dumps_str s))
  | PList l =>
      match depth with
      | O => None
      | S depth' =>
          let fix items (l : list pyval) : option (outcome (list string)) :=
            match l with
            | [] => Some (Returns [])
            | x :: l' =>
                match dumps_at depth' x with
                | Some (Returns s) =>
                    match items l' with
                    | Some (Returns r) => Some (Returns (s :: r))
                    | other => other
                    end
                | Some (Raises e) => Some (Raises e)
                | None => None
                end
            end in
          match items l with
          | Some (Returns r) => Some (Returns ("[" +:+ join ", " r +:+ "]"))
          | Some (Raises e) => Some (Raises e)
          | None => None
          end
      end
  | PDict d =>
      match depth with
      | O => None
      | S depth' =>
          let fix items (d : list (string * pyval)) : option (outcome (list string)) :=
            match d with
            | [] => Some (Returns [])
            | (k, x) :: d' =>
                match dumps_at depth' x with
                | Some (Returns s) =>
                    match items d' with
                    | Some (Returns r) =>
                        Some (Returns ((dumps_str k +:+ ": " +:+ s) :: r))
                    | other => other
                    end
                | Some (Raises e) => Some (Raises e)
                | None => None
                end
            end in
          match items d with
          | Some (Returns r) => Some (Returns ("{" +:+ join ", " r +:+ "}"))
          | Some (Raises e) => Some (Raises e)
          | None => None
          end
      end
  | PObject n => Some (Raises (not_serializable n))
  end.

Definition dumps (v : pyval) : option (outcome string) := dumps_at max_depth v.

(** *** [json.loads]

    A scan yields a value and the text after it, or stops with the [msg]
    of a [JSONDecodeError], or leaves the fragment. *)
Inductive scan (A : Type) : Type :=
| Ok (a : A) (rest : string)
| Err (msg : string)
| Outside.
Arguments Ok {A} a rest.
Arguments Err {A} msg.
Arguments Outside {A}.

Definition is_ws (c : ascii) : bool :=
  let n := nat_of_ascii c in
  Nat.eqb n 32 || Nat.eqb n 9 || Nat.eqb n 10 || Nat.eqb n 13.

Fixpoint skip_ws (s : string) : string :=
  match s with
  | "" => ""
  | String c s' => if is_ws c then skip_ws s' else s
  end.

Definition is_digit (c : ascii) : bool :=
  let n := nat_of_ascii c in Nat.leb 48 n && Nat.leb n 57.

Definition hex_value (c : ascii) : option nat :=
  let n := nat_of_ascii c in
  if Nat.leb 48 n && Nat.leb n 57 then Some (n - 48)
  else if Nat.leb 97 n && Nat.leb n 102 then Some (n - 87)
  else if Nat.leb 65 n && Nat.leb n 70 then Some (n - 55)
  else None.

Definition hex4 (a b c d : ascii) : option nat :=
  match hex_value a, hex_value b, hex_value c, hex_value d with
  | Some x, Some y, Some z, Some w => Some (((x * 16 + y) * 16 + z) * 16 + w)
  | _, _, _, _ => None
  end.

(** The character a one-letter escape stands for. *)
Definition unescape (e : ascii) : option ascii :=
  let n := nat_of_ascii e in
  if Nat.eqb n 34 || Nat.eqb n 92 || Nat.eqb n 47 then Some e
  else if Nat.eqb n 98 then Some "008"%char
  else if Nat.eqb n 102 then Some "012"%char
  else if Nat.eqb n 110 then Some "010"%char
  else if Nat.eqb n 114 then Some "013"%char
  else if Nat.eqb n 116 then Some "009"%char
  else None.

Definition push (c : ascii) (r : scan string) : scan string :=
  match r with
  | Ok s rest => Ok (String c s) rest
  | Err m => Err m
  | Outside => Outside
  end.

(** The body of a string literal, from just after its opening quote (strict
    mode: raw control characters are refused).  An escape [\uXXXX] above
    U+00FF names a character that a [string] here cannot hold. *)
Fixpoint scanstring (s : string) : scan string :=
  match s with
  | "" => Err "Unterminated string starting at"
  | String c s' =>
      let n := nat_of_ascii c in
      if Nat.eqb n 34 then Ok "" s'
      else if Nat.eqb n 92 then
        match s' with
        | "" => Err "Unterminated string starting at"
        | String e s'' =>
            if Ascii.eqb e "u"%char then
              match s'' with
              | String h1 (String h2 (String h3 (String h4 r))) =>
                  match hex4 h1 h2 h3 h4 with
                  | Some code =>
                      if Nat.ltb code 256
                      then push (ascii_of_nat code) (scanstring r)
                      else Outside
                  | None => Err "Invalid \uXXXX escape"
                  end
              | _ => Err "Invalid \uXXXX escape"
              end
            else
              match unescape e with
              | Some ch => push ch (scanstring s'')
              | None => Err "Invalid \escape"
              end
        end
      else if Nat.ltb n 32 then Err "Invalid control character at"
      else push c (scanstring s')
  end.

Fixpoint span_digits (s : string) : string * string :=
  match s with
  | "" => ("", "")
  | String c s' =>
      if is_digit c
      then let '(d, r) := span_digits s' in (String c d, r)
      else ("", s)
  end.

Definition Z_of_digits (d : string) : Z :=
  match NilZero.uint_of_string d with
  | Some u => Z.of_uint u
  | None => 0%Z
  end.

(** A number literal at the head of a text. *)
Inductive number : Type :=
| IntLiteral (z : Z)
| FloatLiteral
| LongLiteral.

(** The scanner's number: an optional minus sign, then a single zero or a
    non-zero digit followed by digits, then an optional fraction (a dot
    and one or more digits) and an optional exponent (e or E, an optional
    sign, one or more digits); longest match.  A literal without fraction
    and exponent is an [int]. *)
Definition match_number (s : string) : option (number * string) :=
  let '(sign, s1) :=
    match s with
    | String "-" r => ("-", r)
    | _ => ("", s)
    end in
  let int_part :=
    match s1 with
    | String c r =>
        if Ascii.eqb c "0"%char then Some ("0", r)
        else if is_digit c then Some (span_digits s1)
        else None
    | "" => None
    end in
  match int_part with
  | None => None
  | Some (ds, r1) =>
      let '(frac, r2) :=
        match r1 with
        | String "." r =>
            let '(fd, r') := span_digits r in
            if truthy fd then ("." +:+ fd, r') else ("", r1)
        | _ => ("", r1)
        end in
      let '(exp, r3) :=
        match r2 with
        | String e r =>
            if Ascii.eqb e "e"%char || Ascii.eqb e "E"%char then
              let '(sg, r') :=
                match r with
                | String "+" t => ("+", t)
                | String "-" t => ("-", t)
                | _ => ("", r)
                end in
              let '(ed, r'') := span_digits r' in
              if truthy ed then (String e (sg +:+ ed), r'') else ("", r2)
            else ("", r2)
        | "" => ("", r2)
        end in
      if truthy frac || truthy exp then Some (FloatLiteral, r3)
      else if Nat.ltb max_digits (String.length ds) then Some (LongLiteral, r3)
      else Some (IntLiteral (if truthy sign then - Z_of_digits ds else Z_of_digits ds),
                 r3)
  end.

(** [s] without its prefix [p], when it has it. *)
Definition after (p s : string) : option string :=
  if String.prefix p s
  then Some (String.substring (String.length p) (String.length s - String.length p) s)
  else None.

Definition constant (s : string) : option (pyval * string) :=
  match after "null" s, after "true" s, after "false" s with
  | Some r, _, _ => Some (PNone, r)
  | _, Some r, _ => Some (PBool true, r)
  | _, _, Some r => Some (PBool false, r)
  | _, _, _ =>
      match after "NaN" s, after "Infinity" s, after "-Infinity" s with
      | Some r, _, _ => Some (PFloat "nan", r)
      | _, Some r, _ => Some (PFloat "inf", r)
      | _, _, Some r => Some (PFloat "-inf", r)
      | _, _, _ => None
      end
  end.

(** [scan_once]: one JSON value at the head of [s].  [members] reads the
    items of an object from its first key on, [elements] those of an array
    from its first value on.  [depth] is the nesting still allowed;
    [fuel] bounds the number of steps. *)
Fixpoint scan_once (fuel depth : nat) (s : string) : scan pyval :=
  match fuel with
  | O => Outside
  | S fuel' =>
      match s with
      | "" => Err "Expecting value"
      | String c r =>
          let n := nat_of_ascii c in
          if Nat.eqb n 34 then
            match scanstring r with
            | Ok str rest => Ok (PStr str) rest
            | Err m => Err m
            | Outside => Outside
            end
          else if Nat.eqb n 123 then
            match depth with
            | O => Outside
            | S depth' =>
                match skip_ws r with
                | String "}" rest => Ok (PDict []) rest
                | r' => members fuel' depth' r' []
                end
            end
          else if Nat.eqb n 91 then
            match depth with
            | O => Outside
            | S depth' =>
                match skip_ws r with
                | String "]" rest => Ok (PList []) rest
                | r' => elements fuel' depth' r' []
                end
            end
          else
            match constant s with
            | Some (v, rest) => Ok v rest
            | None =>
                match match_number s with
                | Some (IntLiteral z, rest) => Ok (PInt z) rest
                | Some (_, _) => Outside
                | None => Err "Expecting value"
                end
            end
      end
  end
with members (fuel depth : nat) (s : string) (acc : list (string * pyval))
  : scan pyval :=
  match fuel with
  | O => Outside
  | S fuel' =>
      match s with
      | String c r =>
          if Nat.eqb (nat_of_ascii c) 34 then
            match scanstring r with
            | Err m => Err m
            | Outside => Outside
            | Ok key r1 =>
                match skip_ws r1 with
                | String ":" r2 =>
                    match scan_once fuel' depth (skip_ws r2) with
                    | Err m => Err m
                    | Outside => Outside
                    | Ok v r3 =>
                        let acc' := PyDict.set key v acc in
                        match skip_ws r3 with
                        | String "}" rest => Ok (PDict acc') rest
                        | String "," r4 => members fuel' depth (skip_ws r4) acc'
                        | _ => Err "Expecting ',' delimiter"
                        end
                    end
                | _ => Err "Expecting ':' delimiter"
                end
            end
          else Err "Expecting property name enclosed in double quotes"
      | "" => Err "Expecting property name enclosed in double quotes"
      end
  end
with elements (fuel depth : nat) (s : string) (acc : list pyval) : scan pyval :=
  match fuel with
  | O => Outside
  | S fuel' =>
      match scan_once fuel' depth s with
      | Err m => Err m
      | Outside => Outside
      | Ok v r1 =>
          match skip_ws r1 with
          | String "]" rest => Ok (PList (rev (v :: acc))) rest
          | String "," r2 => elements fuel' depth (skip_ws r2) (v :: acc)
          | _ => Err "Expecting ',' delimiter"
          end
      end
  end.

(** What [json.loads] does: return the decoded value, raise
    [JSONDecodeError] (here with its [msg] attribute), or raise an
    exception of another class, as it does with [ValueError] for an integer
    beyond the digit limit and with [RecursionError] for a text nested
    beyond the recursion limit. *)
Inductive decoded : Type :=
| Decoded (v : pyval)
| JSONDecodeError (msg : string)
| Raised (e : exn).

Definition loads (s : string) : option decoded :=
  match scan_once (2 * String.length s + 2) max_depth (skip_ws s) with
  | Outside => None
  | Err m => Some (JSONDecodeError m)
  | Ok v rest =>
      match skip_ws rest with
      | "" => Some (Decoded v)
      | _ => Some (JSONDecodeError "Extra data")
      end
  end.

End Json.

(** ** [base64.b64encode] on the UTF-8 bytes of a string *)

Module Base64.

Definition alphabet : string :=
  "ABCDEFGHIJKLMNOPQRSTUVWXYZabcdefghijklmnopqrstuvwxyz0123456789+/".

Definition digit (n : nat) : ascii :=
  match String.get n alphabet with
  | Some c => c
  | None => "="%char
  end.

(** [s.encode('utf-8')]: one byte below 128, two bytes from there up to
    the last character of the model. *)
Fixpoint utf8 (s : string) : list nat :=
  match s with
  | "" => []
  | String c s' =>
      let n := nat_of_ascii c in
      if Nat.ltb n 128 then n :: utf8 s'
      else (192 + n / 64) :: (128 + n mod 64) :: utf8 s'
  end.

(** Three bytes give four digits; a last group of one or two bytes is
    padded with [=]. *)
Fixpoint b64encode (bytes : list nat) : string :=
  match bytes with
  | [] => ""
  | [a] =>
      String (digit (a / 4)) (String (digit (a mod 4 * 16)) "==")
  | [a; b] =>
      String (digit (a / 4))
        (String (digit (a mod 4 * 16 + b / 16))
           (String (digit (b mod 16 * 4)) "="))
  | a :: b :: c :: rest =>
      String (digit (a / 4))
        (String (digit (a mod 4 * 16 + b / 16))
           (String (digit (b mod 16 * 4 + c / 64))
              (String (digit (c mod 64)) (b64encode rest))))
  end.

End Base64.

Import PyStr.

(** ** [sandbox/_utils.py] *)

(** [DependencyInfo] is a [TypedDict] with [total=False]: either key may be
    missing. *)
Record DependencyInfo : Type := {
  version : option string;
  extras : option (list string)
}.

(** A value of [Dependencies]: a version-constraint string or a
    [DependencyInfo]; [DepOther] is any value of another type, which
    [_format_dependencies] still handles. *)
Inductive dep_value : Type :=
| DepStr (constraint : string)
| DepInfo (info : DependencyInfo)
| DepOther.

(** [Dependencies], in insertion order. *)
Definition Dependencies : Type := list (string * dep_value).

(** [Result]: [result] is [None] when the key is absent; [error] is [None]
    when the key holds [None]. *)
Record Result : Type := {
  stdout : string;
  stderr : string;
  result : option pyval;
  error : option string
}.

Definition set_stdout (r : Result) (s : string) : Result :=
  {| stdout := s; stderr := stderr r; result := result r; error := error r |}.
Definition set_stderr (r : Result) (s : string) : Result :=
  {| stdout := stdout r; stderr := s; result := result r; error := error r |}.
Definition set_result (r : Result) (v : pyval) : Result :=
  {| stdout := stdout r; stderr := stderr r; result := Some v; error := error r |}.
Definition set_error (r : Result) (e : string) : Result :=
  {| stdout := stdout r; stderr := stderr r; result := result r; error := Some e |}.

(** The preview of [decode_result_from_stdout]'s error message. *)
Definition output_preview (stdout : string) : string :=
  if Nat.ltb 1000 (String.length stdout)
  then slice_to 1000 stdout +:+ "..."
  else stdout.

Section Utils.
(** [json.dumps(obj, ensure_ascii=False)] and [json.loads], as the
    interpreter provides them. *)
Variable json_dumps : pyval -> outcome string.
Variable json_loads : string -> Json.decoded.

Definition encode_inputs (inputs : option (list (string * pyval))) : outcome string :=
  match inputs with
  | None => Returns "{}"
  | Some d =>
      match json_dumps (PDict d) with
      | Returns s => Returns s
      | Raises e =>
          if isinstance e TypeError then
            Raises (Exn ValueError
                      ("Inputs dictionary is not JSON serializable: " +:+ exn_msg e))
          else Raises e
      end
  end.

Definition decode_result_from_stdout (stdout : string) : outcome pyval :=
  match json_loads (strip stdout) with
  | Json.Decoded v => Returns v
  | Json.JSONDecodeError msg =>
      Raises (Exn ValueError
                ("Failed to decode JSON result from stdout: " +:+ msg
                 +:+ ". Output preview: " +:+ output_preview stdout))
  | Json.Raised e => Raises e
  end.
End Utils.

(** ** [sandbox/manager.py]: the script builders *)

(** The specifier of a [DependencyInfo] entry. *)
Definition info_specifier (key : string) (value : DependencyInfo) : string :=
  let version := default "" (version value) in
  let extras := default [] (extras value) in
  let specifier := key in
  let specifier :=
    match extras with
    | [] => specifier
    | _ => specifier +:+ "[" +:+ join "," extras +:+ "]"
    end in
  let specifier :=
    if truthy version then specifier +:+ "==" +:+ version else specifier in
  specifier.

(** One turn of the loop of [_format_dependencies]. *)
Definition append_dep_line (dep_lines : list string) (item : string * dep_value)
  : list string :=
  let '(key, value) := item in
  match value with
  | DepStr value =>
      if String.eqb value "*"
      then dep_lines ++ [dq +:+ key +:+ dq]
      else dep_lines ++ [dq +:+ key +:+ value +:+ dq]
  | DepInfo value => dep_lines ++ [dq +:+ info_specifier key value +:+ dq]
  | DepOther => dep_lines ++ [dq +:+ key +:+ dq]
  end.

Definition dep_separator : string := "," +:+ nl +:+ "#    ".

Definition _format_dependencies (dependencies : Dependencies) : string :=
  let dep_lines := fold_left append_dep_line dependencies [] in
  join dep_separator dep_lines.

(** The template of [_generate_script] after [textwrap.dedent], filled in;
    the literal opens with a line break. *)
Definition script_template (dependencies_str user_code : string) : string :=
  nl +:+ unlines [
    "# /// script";
    q "# requires-python = `>=3.10`";
    "# dependencies = [";
    "#    " +:+ dependencies_str;
    "# ]";
    "# ///";
    user_code
  ].

(** The template of [_generate_function_script] after [textwrap.dedent],
    filled in. *)
Definition function_script_template
  (dependencies_str imports_code user_function_code b64_encoded_inputs
     exec_logic_placeholder : string) : string :=
  unlines [
    "# /// script";
    q "# requires-python = `>=3.10`";
    "# dependencies = [";
    "#    " +:+ dependencies_str;
    "# ]";
    "# ///";
    "";
    imports_code;
    "";
    user_function_code;
    "";
    q "if __name__ == `__main__`:";
    "    output_result = None";
    "    error_details = None";
    "    final_output_dict = {}";
    "";
    "    try:";
    "        inputs_dict = json.loads(base64.b64decode('" +:+ b64_encoded_inputs
      +:+ "').decode('utf-8'))";
    "        output_result = " +:+ exec_logic_placeholder;
    "    except Exception as e:";
    q "         error_details = f`Error during execution: {e}\n{traceback.format_exc()}`";
    "         print(error_details, file=sys.stderr)";
    q "         final_output_dict[`error`] = error_details";
    "";
    "    if error_details is None:";
    "         try:";
    "             json.dumps(output_result, ensure_ascii=False)";
    q "             final_output_dict[`result`] = output_result";
    "         except TypeError as serialization_error:";
    q "             err_msg = f`Function result not JSON serializable: {serialization_error}`";
    q "             final_output_dict[`error`] = err_msg";
    "             print(err_msg, file=sys.stderr)";
    "";
    "    try:";
    "         print(json.dumps(final_output_dict, ensure_ascii=False))";
    "    except Exception as final_dump_error:";
    q "         err_fallback = {`error`: f`Fatal: Could not dump final output: {final_dump_error}`}";
    "         print(json.dumps(err_fallback))";
    q "         print(err_fallback[`error`], file=sys.stderr)"
  ].

(** ** The host: what the operating system and the container daemon answer *)

(** A [float] is carried by its [repr]: the runners only print the timeout
    and hand it to [subprocess.run]. *)
Definition pyfloat : Type := string.

(** [str(x)] for an optional float. *)
Definition str_timeout (t : option pyfloat) : string :=
  match t with
  | None => "None"
  | Some r => r
  end.

Record CompletedProcess : Type := {
  returncode : Z;
  cp_stdout : string;
  cp_stderr : string
}.

(** The answers of the container daemon to the calls of one
    [DockerSandboxRunner.execute_script], in call order.  [containers_run]
    tells whether the container object is truthy; [exec_run] gives the exit
    code and the demultiplexed output, each stream decoded with
    [errors="replace"], or [None]. *)
Record Daemon : Type := {
  from_env : outcome unit;
  ping : outcome unit;
  containers_run : outcome bool;
  put_archive : outcome unit;
  exec_run : outcome (Z * (option string * option string));
  container_stop : outcome unit
}.

Record DockerSandboxRunner : Type := {
  dk_environment : gmap string string;
  dk_timeout : option pyfloat;
  image : string;
  allow_network : bool;
  docker_client_kwargs : list (string * pyval);
  container_kwargs : list (string * pyval)
}.

Record SubprocessSandboxRunner : Type := {
  sp_environment : gmap string string;
  sp_timeout : option pyfloat;
  uv_path : string;
  cpu_time_limit : option Z;
  memory_limit : option Z
}.

(** The limits of the [resource] module the child process sets. *)
Inductive rlimit : Type := RLIMIT_CPU | RLIMIT_AS.

(** A callable without arguments that runs in the child process, where
    [resource.setrlimit] is what it is given here. *)
Definition child_hook : Type := (rlimit -> Z * Z -> outcome unit) -> outcome unit.

Record Host : Type := {
  (** [shutil.which] *)
  which : string -> option string;
  (** [os.environ] *)
  os_environ : gmap string string;
  (** [tempfile.NamedTemporaryFile] and [write]: the path of the file *)
  write_temp_file : string -> outcome string;
  (** [subprocess.run(command, env=..., timeout=..., preexec_fn=...)] *)
  subprocess_run :
    list string -> gmap string string -> option pyfloat -> child_hook
    -> outcome CompletedProcess;
  (** the daemon's answers for a runner and a script *)
  docker_daemon : DockerSandboxRunner -> string -> Daemon;
  (** [traceback.format_exc()] while the exception is handled *)
  format_exc : exn -> string
}.

(** ** [sandbox/runners/base.py] *)

(** [SandboxRunner.__init__]: the environment attribute. *)
Definition base_environment (environment : option (gmap string string))
  : gmap string string :=
  default ∅ environment.

(** ** [sandbox/runners/subprocess.py] *)

Definition DEFAULT_ALLOWED_ENV_VARS : gset string :=
  {[ "PATH"; "HOME"; "USER"; "TMPDIR"; "TEMP"; "TMP"; "LANG"; "LC_ALL" ]}.

(** Truth value of an optional [dict]. *)
Definition env_truthy (environment : option (gmap string string)) : bool :=
  match environment with
  | None => false
  | Some env => negb (bool_decide (env = ∅))
  end.

(** The loop both runners share: keep the items whose key is allowed. *)
Definition filter_allowed (allowed_env_vars : gset string)
  (environment : option (gmap string string)) : gmap string string :=
  if env_truthy environment
  then filter (fun kv => kv.1 ∈ allowed_env_vars) (default ∅ environment)
  else ∅.

(** [if name in allowed_env_vars and name not in filtered_env:
       filtered_env[name] = os.environ.get(name, "")] *)
Definition inject_default (h : Host) (allowed_env_vars : gset string)
  (filtered_env : gmap string string) (name : string) : gmap string string :=
  if bool_decide (name ∈ allowed_env_vars)
     && negb (bool_decide (is_Some (filtered_env !! name)))
  then <[ name := default "" (os_environ h !! name) ]> filtered_env
  else filtered_env.

(** One turn of the loop over the temp-directory variables. *)
Definition inject_temp (h : Host) (allowed_env_vars : gset string)
  (filtered_env : gmap string string) (temp_var : string) : gmap string string :=
  if bool_decide (temp_var ∈ allowed_env_vars)
     && negb (bool_decide (is_Some (filtered_env !! temp_var)))
     && truthy_opt (os_environ h !! temp_var)
  then <[ temp_var := default "" (os_environ h !! temp_var) ]> filtered_env
  else filtered_env.

(** The filtered environment of [SubprocessSandboxRunner.__init__]. *)
Definition subprocess_filtered_env (h : Host)
  (environment : option (gmap string string))
  (allowed_env_vars : option (gset string)) : gmap string string :=
  let allowed_env_vars := default DEFAULT_ALLOWED_ENV_VARS allowed_env_vars in
  let filtered_env := filter_allowed allowed_env_vars environment in
  let filtered_env := inject_default h allowed_env_vars filtered_env "PATH" in
  let filtered_env := inject_default h allowed_env_vars filtered_env "HOME" in
  let filtered_env := inject_default h allowed_env_vars filtered_env "USER" in
  fold_left (inject_temp h allowed_env_vars) ["TMPDIR"; "TEMP"; "TMP"] filtered_env.

Definition SubprocessSandboxRunner_init (h : Host)
  (environment : option (gmap string string)) (timeout : option pyfloat)
  (allowed_env_vars : option (gset string))
  (cpu_time_limit memory_limit : option Z) : outcome SubprocessSandboxRunner :=
  let uv_path := which h "uv" in
  if negb (truthy_opt uv_path) then
    Raises (Exn FileNotFoundError
              "The 'uv' command was not found in the system PATH.")
  else
    let filtered_env := subprocess_filtered_env h environment allowed_env_vars in
    Returns {| sp_environment := base_environment (Some filtered_env);
               sp_timeout := timeout;
               uv_path := default "" uv_path;
               cpu_time_limit := cpu_time_limit;
               memory_limit := memory_limit |}.

(** [SubprocessSandboxRunner._pre_exec_fn]: a limit that is truthy (a
    number other than 0) is set as soft and hard limit; a call of
    [setrlimit] that raises ends the function. *)
Definition _pre_exec_fn (self : SubprocessSandboxRunner) : child_hook :=
  fun setrlimit =>
    let* _ :=
      match cpu_time_limit self with
      | Some limit =>
          if Z.eqb limit 0 then Returns tt
          else setrlimit RLIMIT_CPU (limit, limit)
      | None => Returns tt
      end in
    match memory_limit self with
    | Some limit =>
        if Z.eqb limit 0 then Returns tt
        else setrlimit RLIMIT_AS (limit, limit)
    | None => Returns tt
    end.

(** The inner [try] of [execute_script], from [subprocess.run] on: the
    [except] clauses in order; an exception that matches none of them
    propagates. *)
Definition subprocess_attempt (h : Host) (self : SubprocessSandboxRunner)
  (tmp_path : string) (result : Result) : outcome Result :=
  let command := [uv_path self; "run"; "--no-project"; tmp_path] in
  match subprocess_run h command (sp_environment self) (sp_timeout self)
          (_pre_exec_fn self) with
  | Returns process =>
      let result := set_stdout result (cp_stdout process) in
      let result := set_stderr result (cp_stderr process) in
      if negb (Z.eqb (returncode process) 0) then
        Returns (set_error result
                   ("Subprocess failed (exit code " +:+ of_Z (returncode process)
                    +:+ "). " +:+ "Stderr: " +:+ strip (cp_stderr process)))
      else Returns result
  | Raises e =>
      if isinstance e TimeoutExpired then
        let result :=
          set_error result
            ("Subprocess timed out after " +:+ str_timeout (sp_timeout self)
             +:+ " seconds.") in
        Returns (set_stderr result
                   (stderr result +:+ nl +:+ "[Runner Error] TimeoutExpired"))
      else if isinstance e FileNotFoundError then
        Raises (Exn FileNotFoundError "'uv' command path invalid.")
      else if isinstance e Exception then
        let result :=
          set_error result ("Subprocess runner unexpected error: " +:+ exn_msg e) in
        Returns (set_stderr result
                   (stderr result +:+ nl +:+ "[Runner Error] " +:+ exn_msg e))
      else Raises e
  end.

(** [SubprocessSandboxRunner.execute_script]; the [finally] clause removes
    the temporary file, which is taken to change neither the result nor a
    raised error. *)
Definition subprocess_execute_script (h : Host) (self : SubprocessSandboxRunner)
  (script_content : string) : outcome Result :=
  let result := {| stdout := ""; stderr := ""; result := None; error := None |} in
  let* tmp_path := write_temp_file h script_content in
  subprocess_attempt h self tmp_path result.

(** ** [sandbox/runners/docker.py] *)

Definition _DEFAULT_IMAGE : string := "ghcr.io/astral-sh/uv:python3.10-alpine".
Definition DEFAULT_ALLOWED_ENV_VARS_DOCKER : gset string := {[ "LANG"; "LC_ALL" ]}.

(** The filtered environment of [DockerSandboxRunner.__init__]. *)
Definition docker_filtered_env (environment : option (gmap string string))
  (allowed_env_vars : option (gset string)) : gmap string string :=
  let allowed_env_vars := default DEFAULT_ALLOWED_ENV_VARS_DOCKER allowed_env_vars in
  filter_allowed allowed_env_vars environment.

Definition DockerSandboxRunner_init (image : string)
  (environment : option (gmap string string)) (timeout : option pyfloat)
  (allow_network : bool) (allowed_env_vars : option (gset string))
  (docker_client_kwargs container_kwargs : option (list (string * pyval)))
  : DockerSandboxRunner :=
  let filtered_env := docker_filtered_env environment allowed_env_vars in
  {| dk_environment := base_environment (Some filtered_env);
     dk_timeout := timeout;
     image := image;
     allow_network := allow_network;
     docker_client_kwargs := default [] docker_client_kwargs;
     container_kwargs := default [] container_kwargs |}.

(** [stream.decode("utf-8", errors="replace") if stream else ""] *)
Definition decode_stream (stream : option string) : string := default "" stream.

(** The body of the [try] of [execute_script]. *)
Definition docker_attempt (d : Daemon) (result : Result) : outcome Result :=
  let* _ := from_env d in
  let* _ := ping d in
  let* container := containers_run d in
  if negb container then
    Raises (Exn RuntimeError "Failed to create Docker container.")
  else
    let* _ := put_archive d in
    let* (exit_code, (stdout_bytes, stderr_bytes)) := exec_run d in
    let result := set_stdout result (decode_stream stdout_bytes) in
    let result := set_stderr result (decode_stream stderr_bytes) in
    if negb (Z.eqb exit_code 0) then
      Returns (set_error result
                 ("Docker execution failed (exit code " +:+ of_Z exit_code
                  +:+ "). " +:+ "Stderr: " +:+ strip (stderr result)))
    else Returns result.

(** [DockerSandboxRunner.execute_script]: the [except] clauses in order; an
    exception that matches none of them propagates.  The [finally] clause
    stops the container under [suppress(DockerException, Exception)] and is
    taken to change neither the result nor a raised error. *)
Definition docker_execute_script (h : Host) (self : DockerSandboxRunner)
  (script_content : string) : outcome Result :=
  let d := docker_daemon h self script_content in
  let result := {| stdout := ""; stderr := ""; result := None; error := None |} in
  match docker_attempt d result with
  | Returns r => Returns r
  | Raises e =>
      if isinstance e ImageNotFound || isinstance e NotFound then
        Raises (Exn RuntimeError ("Docker image/container error: " +:+ exn_msg e))
      else if isinstance e DockerException then
        Raises (Exn RuntimeError ("Docker operation failed: " +:+ exn_msg e))
      else if isinstance e Exception then
        let result :=
          set_error result ("Docker runner unexpected error: " +:+ exn_msg e) in
        Returns (set_stderr result
                   (stderr result +:+ nl +:+ "[Runner Error] " +:+ exn_msg e))
      else Raises e
  end.

(** ** [sandbox/manager.py]: the [Sandbox] class *)

(** [SandboxRunner] is an abstract class: the two runners of the package,
    or any other implementation of [execute_script]. *)
Inductive SandboxRunner : Type :=
| Subprocess (r : SubprocessSandboxRunner)
| Docker (r : DockerSandboxRunner)
| Custom (execute : string -> outcome Result).

Definition execute_script (h : Host) (runner : SandboxRunner)
  (script_content : string) : outcome Result :=
  match runner with
  | Subprocess r => subprocess_execute_script h r script_content
  | Docker r => docker_execute_script h r script_content
  | Custom execute => execute script_content
  end.

Record Sandbox : Type := {
  dependencies : Dependencies;
  settings : list (string * pyval);
  runner : SandboxRunner
}.

(** A keyword argument for a runner's constructor, with a value of the
    parameter's type; [KwOther name] is a keyword of another name, one that
    is no parameter of either constructor besides [self]. *)
Inductive kwarg : Type :=
| KwEnvironment (v : option (gmap string string))
| KwTimeout (v : option pyfloat)
| KwAllowedEnvVars (v : option (gset string))
| KwCpuTimeLimit (v : option Z)
| KwMemoryLimit (v : option Z)
| KwImage (v : string)
| KwAllowNetwork (v : bool)
| KwDockerClientKwargs (v : option (list (string * pyval)))
| KwContainerKwargs (v : option (list (string * pyval)))
| KwOther (name : string).

Definition kw_name (k : kwarg) : string :=
  match k with
  | KwEnvironment _ => "environment"
  | KwTimeout _ => "timeout"
  | KwAllowedEnvVars _ => "allowed_env_vars"
  | KwCpuTimeLimit _ => "cpu_time_limit"
  | KwMemoryLimit _ => "memory_limit"
  | KwImage _ => "image"
  | KwAllowNetwork _ => "allow_network"
  | KwDockerClientKwargs _ => "docker_client_kwargs"
  | KwContainerKwargs _ => "container_kwargs"
  | KwOther name => name
  end.

(** [args[name] = value] on a keyword dictionary in insertion order. *)
Fixpoint kw_set (k : kwarg) (args : list kwarg) : list kwarg :=
  match args with
  | [] => [k]
  | k' :: args' =>
      if String.eqb (kw_name k) (kw_name k') then k :: args'
      else k' :: kw_set k args'
  end.

Definition kw_mem (name : string) (args : list kwarg) : bool :=
  existsb (fun k => String.eqb name (kw_name k)) args.

Definition unexpected_keyword (cls : string) (k : kwarg) : exn :=
  Exn TypeError (cls +:+ ".__init__() got an unexpected keyword argument '"
                 +:+ kw_name k +:+ "'").

Definition multiple_values (cls : string) (k : kwarg) : exn :=
  Exn TypeError (cls +:+ ".__init__() got multiple values for argument '"
                 +:+ kw_name k +:+ "'").

(** The [TypeError] of a call with a keyword the constructor cannot take:
    [self] is bound by the call itself, any other name is unexpected. *)
Definition keyword_error (cls : string) (k : kwarg) : exn :=
  if String.eqb (kw_name k) "self" then multiple_values cls k
  else unexpected_keyword cls k.

(** The parameters of [SubprocessSandboxRunner.__init__]. *)
Record subprocess_params : Type := {
  sa_environment : option (gmap string string);
  sa_timeout : option pyfloat;
  sa_allowed_env_vars : option (gset string);
  sa_cpu_time_limit : option Z;
  sa_memory_limit : option Z
}.

Definition subprocess_defaults : subprocess_params :=
  {| sa_environment := None; sa_timeout := Some "60.0";
     sa_allowed_env_vars := None; sa_cpu_time_limit := None;
     sa_memory_limit := None |}.

Definition subprocess_bind (p : subprocess_params) (k : kwarg)
  : outcome subprocess_params :=
  match k with
  | KwEnvironment v =>
      Returns {| sa_environment := v; sa_timeout := sa_timeout p;
                 sa_allowed_env_vars := sa_allowed_env_vars p;
                 sa_cpu_time_limit := sa_cpu_time_limit p;
                 sa_memory_limit := sa_memory_limit p |}
  | KwTimeout v =>
      Returns {| sa_environment := sa_environment p; sa_timeout := v;
                 sa_allowed_env_vars := sa_allowed_env_vars p;
                 sa_cpu_time_limit := sa_cpu_time_limit p;
                 sa_memory_limit := sa_memory_limit p |}
  | KwAllowedEnvVars v =>
      Returns {| sa_environment := sa_environment p; sa_timeout := sa_timeout p;
                 sa_allowed_env_vars := v;
                 sa_cpu_time_limit := sa_cpu_time_limit p;
                 sa_memory_limit := sa_memory_limit p |}
  | KwCpuTimeLimit v =>
      Returns {| sa_environment := sa_environment p; sa_timeout := sa_timeout p;
                 sa_allowed_env_vars := sa_allowed_env_vars p;
                 sa_cpu_time_limit := v;
                 sa_memory_limit := sa_memory_limit p |}
  | KwMemoryLimit v =>
      Returns {| sa_environment := sa_environment p; sa_timeout := sa_timeout p;
                 sa_allowed_env_vars := sa_allowed_env_vars p;
                 sa_cpu_time_limit := sa_cpu_time_limit p;
                 sa_memory_limit := v |}
  | _ => Raises (keyword_error "SubprocessSandboxRunner" k)
  end.

(** The keywords [SubprocessSandboxRunner.__init__] has. *)
Definition subprocess_keyword (k : kwarg) : bool :=
  match k with
  | KwEnvironment _ | KwTimeout _ | KwAllowedEnvVars _
  | KwCpuTimeLimit _ | KwMemoryLimit _ => true
  | _ => false
  end.

(** The parameters of [DockerSandboxRunner.__init__]. *)
Record docker_params : Type := {
  da_image : string;
  da_environment : option (gmap string string);
  da_timeout : option pyfloat;
  da_allow_network : bool;
  da_allowed_env_vars : option (gset string);
  da_docker_client_kwargs : option (list (string * pyval));
  da_container_kwargs : option (list (string * pyval))
}.

Definition docker_defaults : docker_params :=
  {| da_image := _DEFAULT_IMAGE; da_environment := None; da_timeout := None;
     da_allow_network := false; da_allowed_env_vars := None;
     da_docker_client_kwargs := None; da_container_kwargs := None |}.

Definition docker_bind (p : docker_params) (k : kwarg) : outcome docker_params :=
  let mk i e t n a c r :=
    Returns {| da_image := i; da_environment := e; da_timeout := t;
               da_allow_network := n; da_allowed_env_vars := a;
               da_docker_client_kwargs := c; da_container_kwargs := r |} in
  match k with
  | KwImage v =>
      mk v (da_environment p) (da_timeout p) (da_allow_network p)
        (da_allowed_env_vars p) (da_docker_client_kwargs p) (da_container_kwargs p)
  | KwEnvironment v =>
      mk (da_image p) v (da_timeout p) (da_allow_network p)
        (da_allowed_env_vars p) (da_docker_client_kwargs p) (da_container_kwargs p)
  | KwTimeout v =>
      mk (da_image p) (da_environment p) v (da_allow_network p)
        (da_allowed_env_vars p) (da_docker_client_kwargs p) (da_container_kwargs p)
  | KwAllowNetwork v =>
      mk (da_image p) (da_environment p) (da_timeout p) v
        (da_allowed_env_vars p) (da_docker_client_kwargs p) (da_container_kwargs p)
  | KwAllowedEnvVars v =>
      mk (da_image p) (da_environment p) (da_timeout p) (da_allow_network p)
        v (da_docker_client_kwargs p) (da_container_kwargs p)
  | KwDockerClientKwargs v =>
      mk (da_image p) (da_environment p) (da_timeout p) (da_allow_network p)
        (da_allowed_env_vars p) v (da_container_kwargs p)
  | KwContainerKwargs v =>
      mk (da_image p) (da_environment p) (da_timeout p) (da_allow_network p)
        (da_allowed_env_vars p) (da_docker_client_kwargs p) v
  | _ => Raises (keyword_error "DockerSandboxRunner" k)
  end.

(** Binding a keyword dictionary to the parameters, first error first. *)
Fixpoint bind_all {P : Type} (step : P -> kwarg -> outcome P) (p : P)
  (args : list kwarg) : outcome P :=
  match args with
  | [] => Returns p
  | k :: args' => let* p' := step p k in bind_all step p' args'
  end.

(** [runner_cls( **runner_init_args )] for the two entries of
    [_RUNNER_CLASSES]. *)
Definition construct_runner (h : Host) (runner_type : string)
  (runner_init_args : list kwarg) : outcome SandboxRunner :=
  if String.eqb runner_type "docker" then
    let* p := bind_all docker_bind docker_defaults runner_init_args in
    Returns (Docker (DockerSandboxRunner_init (da_image p) (da_environment p)
                       (da_timeout p) (da_allow_network p) (da_allowed_env_vars p)
                       (da_docker_client_kwargs p) (da_container_kwargs p)))
  else
    let* p := bind_all subprocess_bind subprocess_defaults runner_init_args in
    let* r := SubprocessSandboxRunner_init h (sa_environment p) (sa_timeout p)
                (sa_allowed_env_vars p) (sa_cpu_time_limit p) (sa_memory_limit p) in
    Returns (Subprocess r).

Definition _RUNNER_CLASSES : list string := ["subprocess"; "docker"].

(** [Sandbox.__init__] *)
Definition Sandbox_init (h : Host) (deps : option Dependencies)
  (settings : option (list (string * pyval))) (runner_type : string)
  (environment : option (gmap string string)) (timeout : option pyfloat)
  (allow_network : bool) (allowed_env_vars : option (list string))
  (runner_kwargs : option (list kwarg)) : outcome Sandbox :=
  if negb (existsb (String.eqb runner_type) _RUNNER_CLASSES) then
    Raises (Exn ValueError
              ("Unknown runner_type '" +:+ runner_type
               +:+ "'. Use: ['subprocess', 'docker']"))
  else
    let runner_kwargs := default [] runner_kwargs in
    let final_allowed_env_set : gset string :=
      match allowed_env_vars with
      | Some l => list_to_set l
      | None =>
          if String.eqb runner_type "docker"
          then DEFAULT_ALLOWED_ENV_VARS_DOCKER
          else DEFAULT_ALLOWED_ENV_VARS
      end in
    let runner_init_args :=
      fold_left (fun args k => kw_set k args) runner_kwargs
        [KwEnvironment environment; KwTimeout timeout;
         KwAllowedEnvVars (Some final_allowed_env_set)] in
    let runner_init_args :=
      if String.eqb runner_type "docker"
         && negb (kw_mem "allow_network" runner_init_args)
      then (runner_init_args ++ [KwAllowNetwork allow_network])%list
      else runner_init_args in
    match construct_runner h runner_type runner_init_args with
    | Returns runner =>
        Returns {| dependencies := default [] deps;
                   settings := default [] settings;
                   runner := runner |}
    | Raises e =>
        if isinstance e ImportError || isinstance e FileNotFoundError then
          (* [raise type(e)(...)] *)
          Raises (Exn (exn_cls e)
                    ("Failed to init runner '" +:+ runner_type +:+ "': "
                     +:+ exn_msg e))
        else if isinstance e Exception then
          Raises (Exn RuntimeError
                    ("Failed to initialize runner '" +:+ runner_type +:+ "': "
                     +:+ exn_msg e))
        else Raises e
    end.

Definition _generate_script (self : Sandbox) (code : string) : string :=
  let dependencies_str := _format_dependencies (dependencies self) in
  script_template dependencies_str code.

(** The result [run] and [run_function] build from a caught exception. *)
Definition failure (message : string) : Result :=
  {| stdout := ""; stderr := message; result := None; error := Some message |}.

(** [Sandbox.run]: [except Exception] lets an exception of another class
    propagate. *)
Definition run (h : Host) (self : Sandbox) (code : string) : outcome Result :=
  let script_content := _generate_script self code in
  match execute_script h (runner self) script_content with
  | Returns r => Returns r
  | Raises e =>
      if isinstance e Exception then
        Returns (failure ("Error in sandbox.run setup: " +:+ exn_msg e +:+ nl
                          +:+ format_exc h e))
      else Raises e
  end.

Section RunFunction.
Variable json_dumps : pyval -> outcome string.
Variable json_loads : string -> Json.decoded.

Definition _generate_function_script (self : Sandbox) (code func_name : string)
  (inputs : option (list (string * pyval))) (is_async : bool) : outcome string :=
  let dependencies_str := _format_dependencies (dependencies self) in
  let* encoded_input_json := encode_inputs json_dumps inputs in
  let b64_encoded_inputs := Base64.b64encode (Base64.utf8 encoded_input_json) in
  let import_lines :=
    ["import json"; "import sys"; "import base64"; "import traceback"] in
  let import_lines :=
    if is_async then (import_lines ++ ["import asyncio"])%list else import_lines in
  let imports_code := join nl import_lines in
  let call_str := func_name +:+ "(**inputs_dict)" in
  let exec_logic_placeholder :=
    if is_async then "asyncio.run(" +:+ call_str +:+ ")" else call_str in
  Returns (function_script_template dependencies_str imports_code code
             b64_encoded_inputs exec_logic_placeholder).

(** The part of [run_function] that handles a decoded dictionary. *)
Definition merge_parsed_output (exec_result : Result)
  (parsed_output : list (string * pyval)) : outcome Result :=
  let exec_result :=
    match PyDict.get "result" parsed_output with
    | Some v => set_result exec_result v
    | None => exec_result
    end in
  match PyDict.get "error" parsed_output with
  | Some (PStr script_error) =>
      let combined_error := "Script Error: " +:+ script_error in
      let runner_stderr := stderr exec_result in
      let combined_error :=
        if truthy runner_stderr && negb (contains script_error runner_stderr)
        then combined_error +:+ nl +:+ "--- Runner Stderr ---" +:+ nl
             +:+ runner_stderr
        else combined_error in
      let exec_result := set_error exec_result combined_error in
      if negb (contains script_error runner_stderr)
      then Returns (set_stderr exec_result
                      (strip (runner_stderr +:+ nl +:+ script_error)))
      else Returns exec_result
  | Some script_error =>
      (* [script_error not in runner_stderr] with a left operand that is
         not a [str] *)
      Raises (Exn TypeError
                ("'in <string>' requires string as left operand, not "
                 +:+ type_name_of script_error))
  | None =>
      if negb (PyDict.mem "result" parsed_output)
      then Returns (set_error exec_result
                      "Script JSON output missing 'result' or 'error'.")
      else Returns exec_result
  end.

(** The body of the inner [try] of [run_function]: decoding the stdout and
    handling the decoded value. *)
Definition parse_stdout (exec_result : Result) : outcome Result :=
  let* parsed_output := decode_result_from_stdout json_loads (stdout exec_result) in
  match parsed_output with
  | PDict parsed_output => merge_parsed_output exec_result parsed_output
  | _ => Returns (set_error exec_result "Script JSON output was not a dictionary.")
  end.

(** [run_function] from the runner's result on (the statements after
    [execute_script], inside the outer [try]); the inner [try] has the one
    clause [except ValueError]. *)
Definition decode_exec_result (exec_result : Result) : outcome Result :=
  if truthy_opt (error exec_result) then Returns exec_result
  else if truthy (stdout exec_result) then
    match parse_stdout exec_result with
    | Returns r => Returns r
    | Raises parse_error =>
        if isinstance parse_error ValueError then
          Returns (set_error exec_result
                     ("Failed to parse JSON from stdout: " +:+ exn_msg parse_error))
        else Raises parse_error
    end
  else if truthy (stderr exec_result) then
    Returns (set_error exec_result
               ("Execution failed (no stdout). Stderr: "
                +:+ slice_to 1000 (stderr exec_result)))
  else Returns exec_result.

(** The [except] clauses of the outer [try] of [run_function], in order; an
    exception that matches neither propagates. *)
Definition run_function_except (h : Host) (e : exn) : outcome Result :=
  if isinstance e ValueError then Returns (failure (exn_msg e))
  else if isinstance e Exception then
    Returns (failure ("Error in sandbox.run_function setup: " +:+ exn_msg e +:+ nl
                      +:+ format_exc h e))
  else Raises e.

(** [Sandbox.run_function] *)
Definition run_function (h : Host) (self : Sandbox) (code func_name : string)
  (inputs : option (list (string * pyval))) (is_async : bool) : outcome Result :=
  let attempt :=
    let* script_content :=
      _generate_function_script self code func_name inputs is_async in
    let* exec_result := execute_script h (runner self) script_content in
    decode_exec_result exec_result in
  match attempt with
  | Returns r => Returns r
  | Raises e => run_function_except h e
  end.
End RunFunction.

(** ** The header as the interface description words it

    A second rendering of the dependency list, written from the description
    of the artifact header and compared with [_format_dependencies] below.
    It uses none of the builder's constants: the double quote and the line
    break are given by their code points. *)

Definition double_quote : string := String (ascii_of_nat 34) "".
Definition line_break : string := String (ascii_of_nat 10) "".

(** The shapes the description lists for an entry: [name], for a
    constraint string [name<constraint>], and for a record with a version
    [name==version] and [name[extra1,extra2]==version]. *)
Definition described_shapes (name : string) (value : dep_value) : list string :=
  name ::
  match value with
  | DepStr constraint => [name +:+ constraint]
  | DepInfo info =>
      match version info with
      | Some v =>
          [name +:+ "==" +:+ v;
           name +:+ "[" +:+ String.concat "," (default [] (extras info)) +:+ "]=="
           +:+ v]
      | None => []
      end
  | DepOther => []
  end.

(** The specifier of an entry: the described shapes, and [name[extra1,extra2]]
    for a record with extras and without a version. *)
Definition spec_specifier (name : string) (value : dep_value) : string :=
  match value with
  | DepStr constraint =>
      if String.eqb constraint "*" then name else name +:+ constraint
  | DepInfo info =>
      match default [] (extras info), default "" (version info) with
      | [], "" => name
      | [], v => name +:+ "==" +:+ v
      | es, "" => name +:+ "[" +:+ String.concat "," es +:+ "]"
      | es, v => name +:+ "[" +:+ String.concat "," es +:+ "]==" +:+ v
      end
  | DepOther => name
  end.

Definition spec_quoted_specifier (item : string * dep_value) : string :=
  double_quote +:+ spec_specifier item.1 item.2 +:+ double_quote.

(** One quoted specifier per entry, in the order of the entries, each after
    the first on a comment line of its own. *)
Definition spec_dependency_list (deps : Dependencies) : string :=
  String.concat ("," +:+ line_break +:+ "#    ") (map spec_quoted_specifier deps).

(** The last line of a captured output: the text after the last line break
    of the output without its surrounding whitespace. *)
Fixpoint after_last_newline (s : string) : string :=
  match s with
  | "" => ""
  | String c s' =>
      if contains nl s' then after_last_newline s'
      else if Ascii.eqb c "010"%char then s' else s
  end.

Definition last_line (stdout : string) : string := after_last_newline (strip stdout).

(** The key set the environment filter is described to produce: the allowed
    keys of the supplied map, and the boot defaults that are allowed and
    missing from it. *)
Definition boot_defaults : gset string :=
  {[ "PATH"; "HOME"; "USER"; "TMPDIR"; "TEMP"; "TMP" ]}.

Definition described_env_keys (allowed_env_vars : gset string)
  (environment : gmap string string) : gset string :=
  (allowed_env_vars ∩ dom environment)
  ∪ ((boot_defaults ∩ allowed_env_vars) ∖ dom environment).

(** ** Inputs for the examples *)

Module Demo.

(** The interpreter of the examples: the reference encoder and decoder.  On
    an input outside their fragment, which no example has, it raises. *)
Definition unmodelled : exn :=
  Exn (Subclass "NotImplementedError" RuntimeError) "outside the reference codec".

Definition json_dumps (v : pyval) : outcome string :=
  default (Raises unmodelled) (Json.dumps v).

Definition json_loads (s : string) : Json.decoded :=
  default (Json.Raised unmodelled) (Json.loads s).

Definition failing_process : CompletedProcess :=
  {| returncode := 1; cp_stdout := ""; cp_stderr := "boom" +:+ nl |}.

Definition healthy_daemon : Daemon :=
  {| from_env := Returns tt; ping := Returns tt;
     containers_run := Returns true;
     put_archive := Returns tt;
     exec_run := Returns (0%Z, (Some "ok", None));
     container_stop := Returns tt |}.

(** A daemon that lacks the image for the script ["image"], fails on
    [ping] for ["daemon"], breaks the upload for ["upload"] and runs every
    other script. *)
Definition daemon_for (script : string) : Daemon :=
  if String.eqb script "image" then
    {| from_env := Returns tt; ping := Returns tt;
       containers_run := Raises (Exn ImageNotFound "no such image");
       put_archive := Returns tt;
       exec_run := exec_run healthy_daemon;
       container_stop := Returns tt |}
  else if String.eqb script "daemon" then
    {| from_env := Returns tt;
       ping := Raises (Exn DockerException "daemon is down");
       containers_run := Returns true;
       put_archive := Returns tt;
       exec_run := exec_run healthy_daemon;
       container_stop := Returns tt |}
  else if String.eqb script "upload" then
    {| from_env := Returns tt; ping := Returns tt;
       containers_run := Returns true;
       put_archive := Raises (Exn (Subclass "BrokenPipeError" OSError) "broken pipe");
       exec_run := exec_run healthy_daemon;
       container_stop := Raises (Exn DockerException "already gone") |}
  else healthy_daemon.

(** A host without [uv] on the path whose processes all exit with code 1,
    except that the file of the script ["sleep"] times out. *)
Definition host : Host :=
  {| which := fun _ => None;
     os_environ := {[ "PATH" := "/usr/bin" ]};
     write_temp_file := fun script =>
       Returns (if String.eqb script "sleep" then "/tmp/sleep.py" else "/tmp/s.py");
     subprocess_run := fun command _ _ _ =>
       match command with
       | [_; _; _; "/tmp/sleep.py"] => Raises (Exn TimeoutExpired "timed out")
       | _ => Returns failing_process
       end;
     docker_daemon := fun _ script => daemon_for script;
     format_exc := fun e => "Traceback (most recent call last): " +:+ exn_msg e |}.

(** The same host with [uv] installed. *)
Definition host_with_uv : Host :=
  {| which := fun _ => Some "/usr/bin/uv";
     os_environ := os_environ host;
     write_temp_file := write_temp_file host;
     subprocess_run := subprocess_run host;
     docker_daemon := docker_daemon host;
     format_exc := format_exc host |}.

(** A sandbox whose runner answers every script with [r]. *)
Definition answering (r : Result) : Sandbox :=
  {| dependencies := [("numpy", DepStr ">=1.20")];
     settings := [];
     runner := Custom (fun _ => Returns r) |}.

Definition plain (out err : string) : Result :=
  {| stdout := out; stderr := err; result := None; error := None |}.

Definition main_code : string := "def main(): return 7".

(** Output of a guest that prints a line of its own before the wrapper
    prints the result. *)
Definition chatty_stdout : string :=
  "warming up" +:+ nl +:+ q "{`result`: 7}" +:+ nl.

(** A failed guest whose error text contains what the runner captured on
    stderr. *)
Definition guest_error : Result := plain (q "{`error`: `ab`}") "a".

(** The outcome of a runner that failed by itself. *)
Definition runner_failed : Result :=
  {| stdout := q "{`result`: 7}"; stderr := "Detailed error log";
     result := None; error := Some "Runner failed execution" |}.

(** The script [run_function] builds for [main_code] in these sandboxes. *)
Definition main_script : string :=
  match _generate_function_script json_dumps (answering (plain "" "")) main_code
          "main" None false with
  | Returns script => script
  | Raises _ => ""
  end.

Definition user_env : option (gmap string string) :=
  Some {[ "SECRET" := "123"; "USER" := "test" ]}.

Definition docker_runner : DockerSandboxRunner :=
  DockerSandboxRunner_init _DEFAULT_IMAGE user_env None false None None None.

(** A sandbox with the dependencies of [answering] on the container
    backend. *)
Definition docker_sandbox : Sandbox :=
  {| dependencies := [("numpy", DepStr ">=1.20")];
     settings := [("debug", PBool true)];
     runner := Docker docker_runner |}.

Definition subprocess_runner : SubprocessSandboxRunner :=
  {| sp_environment := subprocess_filtered_env host_with_uv user_env None;
     sp_timeout := Some "60.0";
     uv_path := "/usr/bin/uv";
     cpu_time_limit := None;
     memory_limit := None |}.

End Demo.

(** ** More of the package: the settings of the container *)

(** A value of the keyword dictionary handed to [client.containers.run]: a
    plain value, or the runner's environment map. *)
Inductive setting : Type :=
| SVal (v : pyval)
| SEnv (env : gmap string string).

(** [{**settings, **container_kwargs}] *)
Definition merge_settings (settings : list (string * setting))
  (container_kwargs : list (string * pyval)) : list (string * setting) :=
  fold_left (fun d kv => PyDict.set kv.1 (SVal kv.2) d) container_kwargs settings.

(** [container_kwargs.get("network_mode") is None] *)
Definition network_mode_is_none (container_kwargs : list (string * pyval)) : bool :=
  match PyDict.get "network_mode" container_kwargs with
  | None | Some PNone => true
  | Some _ => false
  end.

(** The [run_settings] of [DockerSandboxRunner.execute_script]. *)
Definition run_settings (self : DockerSandboxRunner) : list (string * setting) :=
  let default_container_settings :=
    [("image", SVal (PStr (image self)));
     ("command", SVal (PStr "tail -f /dev/null"));
     ("detach", SVal (PBool true));
     ("remove", SVal (PBool true));
     ("environment", SEnv (dk_environment self));
     ("security_opt", SVal (PList [PStr "no-new-privileges"]));
     ("cap_drop", SVal (PList [PStr "ALL"]))] in
  let default_container_settings :=
    if negb (allow_network self)
    then PyDict.set "network_mode" (SVal (PStr "none")) default_container_settings
    else default_container_settings in
  let run_settings := merge_settings default_container_settings (container_kwargs self) in
  if negb (allow_network self) && network_mode_is_none (container_kwargs self)
  then PyDict.set "network_mode" (SVal (PStr "none")) run_settings
  else run_settings.




(** More inputs for the examples. *)
Module More.

(** The sandbox [Sandbox.__init__] builds for the container backend from
    the dependencies and environment of the examples. *)
Definition built_docker_sandbox : Sandbox :=
  {| dependencies := [("numpy", DepStr ">=1.20")];
     settings := [];
     runner := Docker Demo.docker_runner |}.

(** The host with [uv] and one more variable in its environment. *)
Definition host_with_secret : Host :=
  {| which := which Demo.host_with_uv;
     os_environ := <[ "AWS_SECRET_ACCESS_KEY" := "hunter2" ]> (os_environ Demo.host_with_uv);
     write_temp_file := write_temp_file Demo.host_with_uv;
     subprocess_run := subprocess_run Demo.host_with_uv;
     docker_daemon := docker_daemon Demo.host_with_uv;
     format_exc := format_exc Demo.host_with_uv |}.

(** A host whose daemon lacks the image, whatever the script. *)
Definition host_without_image : Host :=
  {| which := which Demo.host;
     os_environ := os_environ Demo.host;
     write_temp_file := write_temp_file Demo.host;
     subprocess_run := subprocess_run Demo.host;
     docker_daemon := fun _ _ => Demo.daemon_for "image";
     format_exc := format_exc Demo.host |}.

(** A guest that wrote nothing to stdout and a warning to stderr. *)
Definition only_stderr : Result := Demo.plain "" "warning: nothing printed".

(** A guest that reports a result and an error at once. *)
Definition both_keys : Result :=
  Demo.plain (q "{`result`: 1, `error`: `late failure`}") "".

(** A container runner that asks for the host network while network access
    is not allowed. *)
Definition host_network_runner : DockerSandboxRunner :=
  DockerSandboxRunner_init _DEFAULT_IMAGE None None false None None
    (Some [("network_mode", PStr "host")]).

(** A host with [uv] whose process for the script ["ok"] exits with code 0,
    whose [subprocess.run] cannot find the executable for ["gone"], is
    denied for ["odd"] and is interrupted from the keyboard for ["stop"]. *)
Definition host : Host :=
  {| which := which Demo.host_with_uv;
     os_environ := os_environ Demo.host_with_uv;
     write_temp_file := fun script =>
       if String.eqb script "readonly"
       then Raises (Exn OSError "read-only file system")
       else Returns ("/tmp/" +:+ script +:+ ".py");
     subprocess_run := fun command _ _ _ =>
       match command with
       | [_; _; _; "/tmp/ok.py"] =>
           Returns {| returncode := 0; cp_stdout := "hello" +:+ nl; cp_stderr := "" |}
       | [_; _; _; "/tmp/gone.py"] =>
           Raises (Exn FileNotFoundError "No such file or directory: 'uv'")
       | [_; _; _; "/tmp/odd.py"] =>
           Raises (Exn (Subclass "PermissionError" OSError) "permission denied")
       | [_; _; _; "/tmp/stop.py"] => Raises (Exn KeyboardInterrupt "")
       | _ => Returns Demo.failing_process
       end;
     docker_daemon := docker_daemon Demo.host_with_uv;
     format_exc := format_exc Demo.host_with_uv |}.

(** An interpreter whose [json.loads] refuses every text for an integer
    beyond the digit limit, and one whose [json.loads] exceeds the recursion
    limit on every text. *)
Definition digit_limit : exn :=
  Exn ValueError
    "Exceeds the limit (4300 digits) for integer string conversion: value has 5000 digits; use sys.set_int_max_str_digits() to increase the limit".

Definition loads_digit_limit (s : string) : Json.decoded := Json.Raised digit_limit.

Definition recursion_limit : exn :=
  Exn RecursionError
    "maximum recursion depth exceeded while decoding a JSON array from a unicode string".

Definition loads_recursion_limit (s : string) : Json.decoded :=
  Json.Raised recursion_limit.

(** A record with extras and without a version. *)
Definition extras_only : dep_value :=
  DepInfo {| version := None; extras := Some ["http2"] |}.

End More.


(** * Properties *)

(** ** Strings *)

Section StringFacts.

Lemma append_assoc (a b c : string) : (a +:+ b) +:+ c = a +:+ (b +:+ c).
Proof. induction a as [|x a IH]; simpl; [reflexivity | now rewrite IH]. Qed.

Lemma append_nil_r (a : string) : a +:+ "" = a.
Proof. induction a as [|x a IH]; simpl; [reflexivity | now rewrite IH]. Qed.

Lemma length_append (a b : string) :
  String.length (a +:+ b) = String.length a + String.length b.
Proof. induction a as [|x a IH]; simpl; [reflexivity | now rewrite IH]. Qed.

Lemma length_substring_le (n m : nat) (s : string) :
  String.length (String.substring n m s) <= m.
Proof.
  revert n m; induction s as [|c s IH]; intros n m.
  - destruct n, m; simpl; lia.
  - destruct n as [|n]; destruct m as [|m]; simpl; try lia.
    + specialize (IH 0 m). lia.
    + apply IH.
    + apply IH.
Qed.

Lemma truthy_true_iff (s : string) : truthy s = true <-> s <> "".
Proof. destruct s; simpl; split; congruence. Qed.

Lemma prefix_append (a b : string) : String.prefix a (a +:+ b) = true.
Proof.
  induction a as [|x a IH]; simpl.
  - now destruct b.
  - destruct (ascii_dec x x); [exact IH | congruence].
Qed.

Lemma contains_prefix (x hay : string) :
  String.prefix x hay = true -> contains x hay = true.
Proof. intros H. destruct hay; cbn [contains]; now rewrite H. Qed.

(** [x in a + x + b] *)
Lemma contains_middle (x a b : string) : contains x (a +:+ x +:+ b) = true.
Proof.
  induction a as [|c a IH].
  - change ("" +:+ x +:+ b) with (x +:+ b).
    apply contains_prefix, prefix_append.
  - change (String c a +:+ x +:+ b) with (String c (a +:+ x +:+ b)).
    cbn [contains].
    destruct (String.prefix x (String c (a +:+ x +:+ b))); [reflexivity | exact IH].
Qed.

End StringFacts.

(** ** Exception classes *)

Section Classes.

Ltac by_class c :=
  induction c as [| | | | | | | | | | | | | | | | |name base IH];
  [vm_compute; intros H; first [reflexivity | discriminate H] .. | exact IH].

Lemma ImageNotFound_is_NotFound (e : exn) :
  isinstance e ImageNotFound = true -> isinstance e NotFound = true.
Proof. destruct e as [c m]. unfold isinstance. cbn [exn_cls]. by_class c. Qed.

Lemma NotFound_is_DockerException (e : exn) :
  isinstance e NotFound = true -> isinstance e DockerException = true.
Proof. destruct e as [c m]. unfold isinstance. cbn [exn_cls]. by_class c. Qed.

Lemma DockerException_is_Exception (e : exn) :
  isinstance e DockerException = true -> isinstance e Exception = true.
Proof. destruct e as [c m]. unfold isinstance. cbn [exn_cls]. by_class c. Qed.

Lemma ValueError_is_Exception (e : exn) :
  isinstance e ValueError = true -> isinstance e Exception = true.
Proof. destruct e as [c m]. unfold isinstance. cbn [exn_cls]. by_class c. Qed.

Lemma TypeError_is_Exception (e : exn) :
  isinstance e TypeError = true -> isinstance e Exception = true.
Proof. destruct e as [c m]. unfold isinstance. cbn [exn_cls]. by_class c. Qed.

Lemma TimeoutExpired_is_Exception (e : exn) :
  isinstance e TimeoutExpired = true -> isinstance e Exception = true.
Proof. destruct e as [c m]. unfold isinstance. cbn [exn_cls]. by_class c. Qed.

Lemma FileNotFoundError_is_Exception (e : exn) :
  isinstance e FileNotFoundError = true -> isinstance e Exception = true.
Proof. destruct e as [c m]. unfold isinstance. cbn [exn_cls]. by_class c. Qed.

(** The two classes of the clause [except (ImageNotFound, NotFound)] come
    to the second one. *)
Lemma image_or_container (e : exn) :
  isinstance e ImageNotFound || isinstance e NotFound = isinstance e NotFound.
Proof.
  destruct (isinstance e ImageNotFound) eqn:Hi; [| reflexivity].
  now rewrite (ImageNotFound_is_NotFound e Hi).
Qed.

Example KeyboardInterrupt_is_no_Exception :
  isinstance (Exn KeyboardInterrupt "") Exception = false
  /\ isinstance (Exn SystemExit "1") Exception = false.
Proof. split; reflexivity. Qed.

Example RecursionError_is_no_ValueError :
  isinstance (Exn RecursionError "") ValueError = false
  /\ isinstance (Exn RecursionError "") Exception = true.
Proof. split; reflexivity. Qed.

End Classes.

(** ** The reference decoder and encoder on sample texts *)

Section JsonSamples.

Example loads_result :
  Json.loads (q "{`result`: 7}") = Some (Json.Decoded (PDict [("result", PInt 7)])).
Proof. vm_compute. reflexivity. Qed.

Example loads_nested :
  Json.loads (q " {`a`: [1, -25, `x\nyA`, null, true], `b`: {}, `a`: false} ")
  = Some (Json.Decoded (PDict [("a", PBool false); ("b", PDict [])])).
Proof. vm_compute. reflexivity. Qed.

Example loads_list :
  Json.loads (q "[1, -25, `x\ty`, null, true]")
  = Some (Json.Decoded
            (PList [PInt 1; PInt (-25); PStr ("x" +:+ String "009"%char "y"); PNone;
                    PBool true])).
Proof. vm_compute. reflexivity. Qed.

Example loads_not_json :
  Json.loads "not json" = Some (Json.JSONDecodeError "Expecting value").
Proof. vm_compute. reflexivity. Qed.

Example loads_extra_data :
  Json.loads (q "{`result`: 7} trailing") = Some (Json.JSONDecodeError "Extra data").
Proof. vm_compute. reflexivity. Qed.

Example loads_missing_colon :
  Json.loads (q "{`result` 7}") = Some (Json.JSONDecodeError "Expecting ':' delimiter").
Proof. vm_compute. reflexivity. Qed.

(** A float literal and an escape above U+00FF are outside the fragment. *)
Example loads_outside :
  Json.loads (q "{`result`: 1.5}") = None /\ Json.loads (q "`\u0100`") = None.
Proof. split; vm_compute; reflexivity. Qed.

Example dumps_inputs :
  Json.dumps (PDict [("a", PInt 3); ("b", PList [PStr "x"; PNone; PBool true])])
  = Some (Returns (q "{`a`: 3, `b`: [`x`, null, true]}")).
Proof. vm_compute. reflexivity. Qed.

Example dumps_special_floats :
  Json.dumps (PList [PFloat "nan"; PFloat "inf"; PFloat "-inf"; PFloat "1.5"])
  = Some (Returns "[NaN, Infinity, -Infinity, 1.5]").
Proof. vm_compute. reflexivity. Qed.

(** The first item that is rejected decides, whatever follows it. *)
Example dumps_rejects_objects :
  Json.dumps (PDict [("f", PObject "function"); ("n", PInt 3)])
  = Some (Raises (Json.not_serializable "function")).
Proof. vm_compute. reflexivity. Qed.

Example encode_inputs_rejects_objects :
  encode_inputs Demo.json_dumps (Some [("f", PObject "function")])
  = Raises (Exn ValueError
              "Inputs dictionary is not JSON serializable: Object of type function is not JSON serializable").
Proof. vm_compute. reflexivity. Qed.

Example b64_of_empty_inputs :
  Base64.b64encode (Base64.utf8 "{}") = "e30=".
Proof. reflexivity. Qed.

End JsonSamples.

(** ** The dependency header *)

Section Header.

Lemma info_specifier_spec (key : string) (info : DependencyInfo) :
  info_specifier key info = spec_specifier key (DepInfo info).
Proof.
  unfold info_specifier, spec_specifier, join.
  destruct (default [] (extras info)) as [|e es];
    destruct (default "" (version info)) as [|c v]; cbn [truthy];
    rewrite ?append_assoc; reflexivity.
Qed.

Lemma append_dep_line_spec (dep_lines : list string) (item : string * dep_value) :
  append_dep_line dep_lines item
  = (dep_lines ++ [spec_quoted_specifier item])%list.
Proof.
  destruct item as [key [c|info|]];
    unfold spec_quoted_specifier, append_dep_line; cbn [fst snd].
  - unfold spec_specifier.
    destruct (String.eqb c "*"); rewrite ?append_assoc; reflexivity.
  - now rewrite info_specifier_spec.
  - reflexivity.
Qed.

Lemma dep_lines_spec (deps : Dependencies) (dep_lines : list string) :
  fold_left append_dep_line deps dep_lines
  = (dep_lines ++ map spec_quoted_specifier deps)%list.
Proof.
  revert dep_lines; induction deps as [|item deps IH]; intros dep_lines; simpl.
  - now rewrite app_nil_r.
  - rewrite IH, append_dep_line_spec, <- app_assoc. reflexivity.
Qed.

(** The loop of [_format_dependencies] gives the described list. *)
Lemma format_dependencies_rendering (deps : Dependencies) :
  _format_dependencies deps = spec_dependency_list deps.
Proof.
  unfold _format_dependencies, spec_dependency_list.
  now rewrite dep_lines_spec.
Qed.

(** A specifier has one of the described shapes, or is that of a record
    with extras and without a version. *)
Lemma specifier_shape (name : string) (value : dep_value) :
  In (spec_specifier name value) (described_shapes name value)
  \/ exists (info : DependencyInfo) (es : list string),
       value = DepInfo info /\ extras info = Some es /\ es <> []
       /\ default "" (version info) = ""
       /\ spec_specifier name value
          = name +:+ "[" +:+ String.concat "," es +:+ "]".
Proof.
  destruct value as [c|[v e]|].
  - left. unfold spec_specifier, described_shapes.
    destruct (String.eqb c "*"); [now left | right; now left].
  - destruct e as [[|x es]|]; destruct v as [[|ch v]|];
      unfold spec_specifier, described_shapes;
      cbn [extras version from_option id];
      try (left; cbn [In]; now auto);
      right; eexists _, _; repeat split; discriminate.
  - left. now left.
Qed.

(** C9, as the code has it.  For every dependency mapping, the header text
    built by the loop of [_format_dependencies] is the list of the
    specifiers of the dependencies, each between double quotes, one per
    entry and in insertion order, joined by a comma and a comment line
    break.  Each specifier has one of the shapes [name] (for the constraint
    ["*"] and for an empty record), [name<constraint>], [name==version] and
    [name[extra1,extra2]==version], or, for a record with extras and
    without a version, the shape [name[extra1,extra2]]. *)
Theorem format_dependencies_spec (deps : Dependencies) :
  _format_dependencies deps = spec_dependency_list deps
  /\ forall (name : string) (value : dep_value),
       In (spec_specifier name value) (described_shapes name value)
       \/ exists (info : DependencyInfo) (es : list string),
            value = DepInfo info /\ extras info = Some es /\ es <> []
            /\ default "" (version info) = ""
            /\ spec_specifier name value
               = name +:+ "[" +:+ String.concat "," es +:+ "]".
Proof.
  split; [apply format_dependencies_rendering | apply specifier_shape].
Qed.

(** C9 as stated fails: a record with extras and without a version is
    rendered as [name[extra1]], which is none of the four shapes of the
    description. *)
Lemma extras_without_version_shape :
  _format_dependencies [("httpx", More.extras_only)]
  = double_quote +:+ "httpx[http2]" +:+ double_quote
  /\ ~ In "httpx[http2]" (described_shapes "httpx" More.extras_only).
Proof.
  split; [reflexivity |].
  cbn. intros [H|[]]. discriminate H.
Qed.

Example format_dependencies_shapes :
  _format_dependencies
    [("cowsay", DepStr "*");
     ("numpy", DepStr ">=1.20");
     ("plain", DepInfo {| version := None; extras := None |});
     ("rich", DepInfo {| version := Some "13.0"; extras := None |});
     ("uvicorn", DepInfo {| version := Some "0.30"; extras := Some ["standard"; "dev"] |});
     ("httpx", DepInfo {| version := None; extras := Some ["http2"] |})]
  = q "`cowsay`," +:+ nl
    +:+ q "#    `numpy>=1.20`," +:+ nl
    +:+ q "#    `plain`," +:+ nl
    +:+ q "#    `rich==13.0`," +:+ nl
    +:+ q "#    `uvicorn[standard,dev]==0.30`," +:+ nl
    +:+ q "#    `httpx[http2]`".
Proof. reflexivity. Qed.

(** C3. The artifact text depends on the sandbox only through its
    dependency list: two sandboxes that hold the same dependencies in the
    same order, whatever their runner and settings, build the same text
    for the same code, function name, inputs and async flag, in plain mode
    and in function-call mode (where the builder may also raise, and then
    raises the same error). *)
Theorem script_builder_deterministic (json_dumps : pyval -> outcome string)
  (s1 s2 : Sandbox) (code func_name : string)
  (inputs : option (list (string * pyval))) (is_async : bool) :
  dependencies s1 = dependencies s2 ->
  _generate_script s1 code = _generate_script s2 code
  /\ _generate_function_script json_dumps s1 code func_name inputs is_async
     = _generate_function_script json_dumps s2 code func_name inputs is_async.
Proof.
  intros Hdeps. unfold _generate_script, _generate_function_script.
  rewrite Hdeps. split; reflexivity.
Qed.

Lemma script_builder_deterministic_witness :
  dependencies (Demo.answering (Demo.plain "" ""))
  = dependencies Demo.docker_sandbox
  /\ _generate_script (Demo.answering (Demo.plain "" "")) Demo.main_code
     = _generate_script Demo.docker_sandbox Demo.main_code
  /\ _generate_function_script Demo.json_dumps (Demo.answering (Demo.plain "" ""))
       Demo.main_code "main" (Some [("a", PInt 3)]) true
     = _generate_function_script Demo.json_dumps Demo.docker_sandbox
         Demo.main_code "main" (Some [("a", PInt 3)]) true.
Proof.
  split; [reflexivity |].
  apply (script_builder_deterministic Demo.json_dumps
           (Demo.answering (Demo.plain "" "")) Demo.docker_sandbox
           Demo.main_code "main" (Some [("a", PInt 3)]) true).
  reflexivity.
Defined.

End Header.

(** ** The environment filter *)

Section EnvironmentFilter.
Implicit Types (allowed : gset string) (filtered : gmap string string).

Lemma filter_allowed_eq allowed (environment : option (gmap string string)) :
  filter_allowed allowed environment
  = filter (fun kv => kv.1 ∈ allowed) (default ∅ environment).
Proof.
  unfold filter_allowed, env_truthy.
  destruct environment as [env|]; simpl.
  - case_bool_decide; simpl; [subst; now rewrite map_filter_empty | reflexivity].
  - now rewrite map_filter_empty.
Qed.

Lemma filter_allowed_lookup_Some allowed environment (k v : string) :
  filter_allowed allowed environment !! k = Some v
  <-> default ∅ environment !! k = Some v /\ k ∈ allowed.
Proof. rewrite filter_allowed_eq. apply map_lookup_filter_Some. Qed.

Lemma elem_of_dom_filter_allowed allowed environment (k : string) :
  k ∈ dom (filter_allowed allowed environment)
  <-> k ∈ allowed /\ k ∈ dom (default ∅ environment).
Proof.
  rewrite !elem_of_dom. unfold is_Some.
  setoid_rewrite filter_allowed_lookup_Some. naive_solver.
Qed.

Lemma elem_of_dom_inject_default (h : Host) allowed filtered (name k : string) :
  k ∈ dom (inject_default h allowed filtered name)
  <-> k ∈ dom filtered \/ (k = name /\ name ∈ allowed).
Proof.
  unfold inject_default.
  destruct (bool_decide (name ∈ allowed)) eqn:Ha;
    destruct (bool_decide (is_Some (filtered !! name))) eqn:Hf; simpl;
    rewrite ?dom_insert_L;
    try apply bool_decide_eq_true in Ha; try apply bool_decide_eq_false in Ha;
    try apply bool_decide_eq_true in Hf; try apply bool_decide_eq_false in Hf;
    try (apply elem_of_dom in Hf); set_solver.
Qed.

Lemma elem_of_dom_inject_temp (h : Host) allowed filtered (temp_var k : string) :
  k ∈ dom (inject_temp h allowed filtered temp_var)
  <-> k ∈ dom filtered
      \/ (k = temp_var /\ temp_var ∈ allowed
          /\ truthy_opt (os_environ h !! temp_var) = true).
Proof.
  unfold inject_temp.
  destruct (bool_decide (temp_var ∈ allowed)) eqn:Ha;
    destruct (bool_decide (is_Some (filtered !! temp_var))) eqn:Hf;
    destruct (truthy_opt (os_environ h !! temp_var)) eqn:Ht; simpl;
    rewrite ?dom_insert_L;
    try apply bool_decide_eq_true in Ha; try apply bool_decide_eq_false in Ha;
    try apply bool_decide_eq_true in Hf; try apply bool_decide_eq_false in Hf;
    try (apply elem_of_dom in Hf); set_solver.
Qed.

(** Injection never overwrites an entry that is already there. *)
Lemma inject_default_preserves (h : Host) allowed filtered (name k v : string) :
  filtered !! k = Some v -> inject_default h allowed filtered name !! k = Some v.
Proof.
  intros Hk. unfold inject_default.
  destruct (bool_decide (name ∈ allowed)); simpl; [| exact Hk].
  case_bool_decide as Hf; simpl; [exact Hk |].
  rewrite lookup_insert_ne; [exact Hk |].
  intros ->. apply Hf. now exists v.
Qed.

Lemma inject_temp_preserves (h : Host) allowed filtered (temp_var k v : string) :
  filtered !! k = Some v -> inject_temp h allowed filtered temp_var !! k = Some v.
Proof.
  intros Hk. unfold inject_temp.
  destruct (bool_decide (temp_var ∈ allowed)); simpl; [| exact Hk].
  case_bool_decide as Hf; simpl; [exact Hk |].
  destruct (truthy_opt (os_environ h !! temp_var)); [| exact Hk].
  rewrite lookup_insert_ne; [exact Hk |].
  intros ->. apply Hf. now exists v.
Qed.

Lemma elem_of_dom_subprocess_filtered_env (h : Host)
  (environment : option (gmap string string))
  (allowed_env_vars : option (gset string)) (k : string) :
  k ∈ dom (subprocess_filtered_env h environment allowed_env_vars)
  <-> k ∈ default DEFAULT_ALLOWED_ENV_VARS allowed_env_vars
      /\ (k ∈ dom (default ∅ environment)
          \/ k ∈ ({[ "PATH"; "HOME"; "USER" ]} : gset string)
          \/ (k ∈ ({[ "TMPDIR"; "TEMP"; "TMP" ]} : gset string)
              /\ truthy_opt (os_environ h !! k) = true)).
Proof.
  unfold subprocess_filtered_env. cbn [fold_left].
  rewrite !elem_of_dom_inject_temp, !elem_of_dom_inject_default,
    elem_of_dom_filter_allowed.
  set_solver.
Qed.

Lemma subprocess_filtered_env_keeps (h : Host)
  (environment : option (gmap string string))
  (allowed_env_vars : option (gset string)) (k v : string) :
  default ∅ environment !! k = Some v ->
  k ∈ default DEFAULT_ALLOWED_ENV_VARS allowed_env_vars ->
  subprocess_filtered_env h environment allowed_env_vars !! k = Some v.
Proof.
  intros Hk Ha. unfold subprocess_filtered_env. cbn [fold_left].
  repeat apply inject_temp_preserves. repeat apply inject_default_preserves.
  now apply filter_allowed_lookup_Some.
Qed.

Lemma inject_default_lookup_ne (h : Host) allowed filtered (name k : string) :
  k <> name -> inject_default h allowed filtered name !! k = filtered !! k.
Proof.
  intros Hne. unfold inject_default.
  destruct (_ && _); [| reflexivity]. now rewrite lookup_insert_ne.
Qed.

Lemma inject_default_lookup_new (h : Host) allowed filtered (name : string) :
  name ∈ allowed -> filtered !! name = None ->
  inject_default h allowed filtered name !! name
  = Some (default "" (os_environ h !! name)).
Proof.
  intros Ha Hn. unfold inject_default.
  rewrite (bool_decide_eq_true_2 _ Ha).
  rewrite bool_decide_eq_false_2 by (rewrite Hn; intros [? [=]]).
  cbn [negb andb]. apply lookup_insert_eq.
Qed.

Lemma inject_temp_lookup_ne (h : Host) allowed filtered (temp_var k : string) :
  k <> temp_var -> inject_temp h allowed filtered temp_var !! k = filtered !! k.
Proof.
  intros Hne. unfold inject_temp.
  destruct (_ && _); [| reflexivity]. now rewrite lookup_insert_ne.
Qed.

Lemma inject_temp_lookup_new (h : Host) allowed filtered (temp_var : string) :
  temp_var ∈ allowed -> filtered !! temp_var = None ->
  inject_temp h allowed filtered temp_var !! temp_var
  = if truthy_opt (os_environ h !! temp_var) then os_environ h !! temp_var
    else None.
Proof.
  intros Ha Hn. unfold inject_temp.
  rewrite (bool_decide_eq_true_2 _ Ha).
  rewrite bool_decide_eq_false_2 by (rewrite Hn; intros [? [=]]).
  cbn [negb andb].
  destruct (os_environ h !! temp_var) as [v|] eqn:Hv; cbn [truthy_opt];
    [| exact Hn].
  destruct (truthy v); [| exact Hn].
  cbn [from_option id]. apply lookup_insert_eq.
Qed.

(** What the subprocess runner puts under a boot default that is allowed
    and was not supplied. *)
Lemma subprocess_filtered_env_reinjects (h : Host)
  (environment : option (gmap string string))
  (allowed_env_vars : option (gset string)) (k : string) :
  default ∅ environment !! k = None ->
  k ∈ default DEFAULT_ALLOWED_ENV_VARS allowed_env_vars ->
  (k ∈ ({[ "PATH"; "HOME"; "USER" ]} : gset string) ->
   subprocess_filtered_env h environment allowed_env_vars !! k
   = Some (default "" (os_environ h !! k)))
  /\ (k ∈ ({[ "TMPDIR"; "TEMP"; "TMP" ]} : gset string) ->
      subprocess_filtered_env h environment allowed_env_vars !! k
      = if truthy_opt (os_environ h !! k) then os_environ h !! k else None).
Proof.
  intros Hk Ha.
  assert (Hf : filter_allowed (default DEFAULT_ALLOWED_ENV_VARS allowed_env_vars)
                 environment !! k = None).
  { destruct (filter_allowed _ _ !! k) as [v|] eqn:Hv; [| reflexivity].
    apply filter_allowed_lookup_Some in Hv as [Hv _]. congruence. }
  unfold subprocess_filtered_env. cbn [fold_left].
  split; intros Hin.
  - rewrite !inject_temp_lookup_ne
      by (intros ->; repeat (apply elem_of_union in Hin as [Hin|Hin]);
          apply elem_of_singleton in Hin; discriminate Hin).
    repeat (apply elem_of_union in Hin as [Hin|Hin]);
      apply elem_of_singleton in Hin; subst k.
    + rewrite !inject_default_lookup_ne by discriminate.
      now apply inject_default_lookup_new.
    + rewrite inject_default_lookup_ne by discriminate.
      apply inject_default_lookup_new; [exact Ha |].
      now rewrite inject_default_lookup_ne by discriminate.
    + apply inject_default_lookup_new; [exact Ha |].
      now rewrite !inject_default_lookup_ne by discriminate.
  - repeat (apply elem_of_union in Hin as [Hin|Hin]);
      apply elem_of_singleton in Hin; subst k.
    + rewrite !inject_temp_lookup_ne by discriminate.
      apply inject_temp_lookup_new; [exact Ha |].
      now rewrite !inject_default_lookup_ne by discriminate.
    + rewrite inject_temp_lookup_ne by discriminate.
      apply inject_temp_lookup_new; [exact Ha |].
      rewrite inject_temp_lookup_ne by discriminate.
      now rewrite !inject_default_lookup_ne by discriminate.
    + apply inject_temp_lookup_new; [exact Ha |].
      rewrite !inject_temp_lookup_ne by discriminate.
      now rewrite !inject_default_lookup_ne by discriminate.
Qed.

(** C2, as the code has it.  The runner built by
    [SubprocessSandboxRunner.__init__] holds exactly the allowed keys that
    are in the supplied map, or are one of PATH, HOME and USER, or are one
    of TMPDIR, TEMP and TMP with a non-empty value in the environment of
    the host process; the runner built by [DockerSandboxRunner.__init__]
    holds exactly the allowed keys of the supplied map and re-injects
    nothing.  Neither holds a key outside the allow-list, and both keep the
    supplied value of every allowed key; the subprocess runner re-injects
    PATH, HOME and USER with the value of the host process (or the empty
    string) and the temp-directory variables with their non-empty value
    there. *)
Theorem filtered_environment_keys (h : Host)
  (environment : option (gmap string string)) (timeout : option pyfloat)
  (allowed_env_vars : option (gset string))
  (cpu_time_limit memory_limit : option Z) (image : string)
  (allow_network : bool)
  (docker_client_kwargs container_kwargs : option (list (string * pyval)))
  (sp : SubprocessSandboxRunner) :
  SubprocessSandboxRunner_init h environment timeout allowed_env_vars
    cpu_time_limit memory_limit = Returns sp ->
  let dk := DockerSandboxRunner_init image environment timeout allow_network
              allowed_env_vars docker_client_kwargs container_kwargs in
  let sp_allowed := default DEFAULT_ALLOWED_ENV_VARS allowed_env_vars in
  let dk_allowed := default DEFAULT_ALLOWED_ENV_VARS_DOCKER allowed_env_vars in
  let supplied := default ∅ environment in
  (forall k : string,
      k ∈ dom (sp_environment sp)
      <-> k ∈ sp_allowed
          /\ (k ∈ dom supplied
              \/ k ∈ ({[ "PATH"; "HOME"; "USER" ]} : gset string)
              \/ (k ∈ ({[ "TMPDIR"; "TEMP"; "TMP" ]} : gset string)
                  /\ truthy_opt (os_environ h !! k) = true)))
  /\ (forall k : string,
        k ∈ dom (dk_environment dk) <-> k ∈ dk_allowed /\ k ∈ dom supplied)
  /\ dom (sp_environment sp) ⊆ sp_allowed
  /\ dom (dk_environment dk) ⊆ dk_allowed
  /\ (forall k v : string,
        supplied !! k = Some v ->
        (k ∈ sp_allowed -> sp_environment sp !! k = Some v)
        /\ (k ∈ dk_allowed -> dk_environment dk !! k = Some v))
  /\ (forall k : string,
        supplied !! k = None -> k ∈ sp_allowed ->
        (k ∈ ({[ "PATH"; "HOME"; "USER" ]} : gset string) ->
         sp_environment sp !! k = Some (default "" (os_environ h !! k)))
        /\ (k ∈ ({[ "TMPDIR"; "TEMP"; "TMP" ]} : gset string) ->
            sp_environment sp !! k
            = if truthy_opt (os_environ h !! k) then os_environ h !! k else None)).
Proof.
  unfold SubprocessSandboxRunner_init.
  destruct (negb (truthy_opt (which h "uv"))); [discriminate |].
  intros [= <-]. cbv zeta.
  cbn [sp_environment dk_environment DockerSandboxRunner_init
         base_environment default].
  unfold docker_filtered_env.
  split; [intros k; apply elem_of_dom_subprocess_filtered_env |].
  split; [intros k; apply elem_of_dom_filter_allowed |].
  split; [intros k Hk; now apply elem_of_dom_subprocess_filtered_env in Hk |].
  split; [intros k Hk; now apply elem_of_dom_filter_allowed in Hk |].
  split.
  - intros k v Hk; split; intros Ha.
    + now apply subprocess_filtered_env_keeps.
    + now apply filter_allowed_lookup_Some.
  - intros k Hk Ha. now apply subprocess_filtered_env_reinjects.
Qed.

Lemma filtered_environment_keys_witness :
  SubprocessSandboxRunner_init Demo.host_with_uv Demo.user_env
    (Some "60.0") None None None = Returns Demo.subprocess_runner
  /\ dom (sp_environment Demo.subprocess_runner) ⊆ DEFAULT_ALLOWED_ENV_VARS
  /\ sp_environment Demo.subprocess_runner !! "USER" = Some "test".
Proof.
  split; [reflexivity |].
  pose proof (filtered_environment_keys Demo.host_with_uv Demo.user_env
                (Some "60.0") None None None _DEFAULT_IMAGE false None None
                Demo.subprocess_runner eq_refl) as H.
  cbv zeta in H. destruct H as (_ & _ & Hsub & _ & Hkeep & _).
  split; [exact Hsub |].
  apply (Hkeep "USER" "test").
  - vm_compute. reflexivity.
  - cbn [from_option id]. unfold DEFAULT_ALLOWED_ENV_VARS. set_solver.
Defined.

(** C2 as stated fails on the container backend: with LANG and PATH
    allowed and only LANG supplied, the description asks for PATH to be
    re-injected, and the runner's environment has no PATH. *)
Lemma docker_filter_does_not_reinject :
  dom (dk_environment
         (DockerSandboxRunner_init _DEFAULT_IMAGE (Some {[ "LANG" := "C" ]}) None
            false (Some {[ "LANG"; "PATH" ]}) None None))
  <> described_env_keys {[ "LANG"; "PATH" ]} {[ "LANG" := "C" ]}.
Proof.
  intros Heq.
  assert (Hin : "PATH" ∈ described_env_keys {[ "LANG"; "PATH" ]}
                           ({[ "LANG" := "C" ]} : gmap string string)).
  { unfold described_env_keys, boot_defaults.
    rewrite dom_singleton_L. set_solver. }
  rewrite <- Heq in Hin.
  cbn [dk_environment DockerSandboxRunner_init base_environment default] in Hin.
  apply elem_of_dom_filter_allowed in Hin as [_ Hin].
  cbn [from_option id] in Hin. rewrite dom_singleton_L in Hin.
  apply elem_of_singleton in Hin. discriminate Hin.
Qed.

End EnvironmentFilter.

(** ** The process backend *)

Section ProcessBackend.

Lemma contains_suffix (x a : string) : contains x (a +:+ x) = true.
Proof.
  rewrite <- (append_nil_r x) at 2. apply contains_middle.
Qed.

(** What both runners return carries no structured result, and an error
    that is [None] or a non-empty message. *)
Lemma subprocess_outcome_shape (h : Host) (self : SubprocessSandboxRunner)
  (script : string) (r : Result) :
  subprocess_execute_script h self script = Returns r ->
  result r = None /\ error r <> Some "".
Proof.
  unfold subprocess_execute_script, subprocess_attempt.
  destruct (write_temp_file h script) as [tmp|e]; [| discriminate].
  cbn [bind].
  destruct (subprocess_run h _ _ _ _) as [p|e].
  - destruct (negb (returncode p =? 0)%Z); intros [= <-]; split;
      (reflexivity || discriminate).
  - destruct (isinstance e TimeoutExpired);
      [intros [= <-]; split; (reflexivity || discriminate) |].
    destruct (isinstance e FileNotFoundError); [discriminate |].
    destruct (isinstance e Exception); [| discriminate].
    intros [= <-]; split; (reflexivity || discriminate).
Qed.

(** C6. On the process backend a timeout gives the error "Subprocess timed
    out after <timeout> seconds." with the annotation "[Runner Error]
    TimeoutExpired" on stderr; a completed process with a nonzero exit
    code gives the error "Subprocess failed (exit code <code>). Stderr:
    <stderr>", which contains the exit code and the captured stderr
    (stripped), next to the captured stdout and stderr; and no timeout
    message is ever a nonzero-exit message. *)
Theorem subprocess_timeout_and_failure (h : Host) (self : SubprocessSandboxRunner)
  (script tmp_path : string) :
  write_temp_file h script = Returns tmp_path ->
  (forall e : exn,
      subprocess_run h [uv_path self; "run"; "--no-project"; tmp_path]
        (sp_environment self) (sp_timeout self) (_pre_exec_fn self)
      = Raises e ->
      isinstance e TimeoutExpired = true ->
      subprocess_execute_script h self script
      = Returns {| stdout := "";
                   stderr := nl +:+ "[Runner Error] TimeoutExpired";
                   result := None;
                   error := Some ("Subprocess timed out after "
                                  +:+ str_timeout (sp_timeout self)
                                  +:+ " seconds.") |})
  /\ (forall p : CompletedProcess,
        subprocess_run h [uv_path self; "run"; "--no-project"; tmp_path]
          (sp_environment self) (sp_timeout self) (_pre_exec_fn self)
        = Returns p ->
        returncode p <> 0%Z ->
        let message :=
          "Subprocess failed (exit code " +:+ of_Z (returncode p)
          +:+ "). Stderr: " +:+ strip (cp_stderr p) in
        subprocess_execute_script h self script
        = Returns {| stdout := cp_stdout p; stderr := cp_stderr p;
                     result := None; error := Some message |}
        /\ contains (of_Z (returncode p)) message = true
        /\ contains (strip (cp_stderr p)) message = true)
  /\ (forall (rc : Z) (err : string),
        "Subprocess timed out after " +:+ str_timeout (sp_timeout self)
        +:+ " seconds."
        <> "Subprocess failed (exit code " +:+ of_Z rc +:+ "). Stderr: " +:+ err).
Proof.
  intros Htmp. unfold subprocess_execute_script, subprocess_attempt.
  rewrite Htmp. cbn [bind].
  split; [| split].
  - intros e -> He. rewrite He. reflexivity.
  - intros p -> Hrc. cbv zeta.
    destruct (Z.eqb_spec (returncode p) 0) as [Heq|_]; [contradiction |].
    cbn [negb]. split; [reflexivity | split].
    + apply contains_middle.
    + rewrite <- !append_assoc. apply contains_suffix.
  - intros rc err Heq. simpl in Heq. discriminate Heq.
Qed.

Lemma subprocess_timeout_and_failure_witness :
  subprocess_execute_script Demo.host Demo.subprocess_runner "sleep"
  = Returns {| stdout := "";
               stderr := nl +:+ "[Runner Error] TimeoutExpired";
               result := None;
               error := Some "Subprocess timed out after 60.0 seconds." |}
  /\ subprocess_execute_script Demo.host Demo.subprocess_runner "exit(1)"
     = Returns {| stdout := "";
                  stderr := "boom" +:+ nl;
                  result := None;
                  error := Some "Subprocess failed (exit code 1). Stderr: boom" |}.
Proof.
  split.
  - exact (proj1 (subprocess_timeout_and_failure Demo.host
                    Demo.subprocess_runner "sleep" "/tmp/sleep.py" eq_refl)
             (Exn TimeoutExpired "timed out") eq_refl eq_refl).
  - refine (proj1 (proj1 (proj2 (subprocess_timeout_and_failure Demo.host
                    Demo.subprocess_runner "exit(1)" "/tmp/s.py" eq_refl))
             Demo.failing_process eq_refl _)).
    discriminate.
Defined.

End ProcessBackend.

(** ** The container backend *)

Section ContainerBackend.

Lemma docker_attempt_shape (d : Daemon) (r : Result) :
  docker_attempt d {| stdout := ""; stderr := ""; result := None; error := None |}
  = Returns r ->
  result r = None /\ error r <> Some "".
Proof.
  unfold docker_attempt.
  destruct d as [fe pg cr pa er st]; cbn [from_env ping containers_run put_archive exec_run].
  destruct fe as [[]|e]; cbn [bind]; [| discriminate].
  destruct pg as [[]|e]; cbn [bind]; [| discriminate].
  destruct cr as [[|]|e]; cbn [bind negb]; [| discriminate | discriminate].
  destruct pa as [[]|e]; cbn [bind]; [| discriminate].
  destruct er as [[code [out err]]|e]; cbn [bind]; [| discriminate].
  destruct (negb (code =? 0)%Z); intros [= <-]; split;
    (reflexivity || discriminate).
Qed.

Lemma docker_outcome_shape (h : Host) (self : DockerSandboxRunner)
  (script : string) (r : Result) :
  docker_execute_script h self script = Returns r ->
  result r = None /\ error r <> Some "".
Proof.
  unfold docker_execute_script.
  destruct (docker_attempt _ _) as [r'|e] eqn:Ha.
  - intros [= <-]. exact (docker_attempt_shape _ _ Ha).
  - destruct (isinstance e ImageNotFound || isinstance e NotFound); [discriminate |].
    destruct (isinstance e DockerException); [discriminate |].
    destruct (isinstance e Exception); [| discriminate].
    intros [= <-]; split; (reflexivity || discriminate).
Qed.

(** What [DockerSandboxRunner.execute_script] does with an exception of the
    daemon calls, clause by clause. *)
Lemma docker_execute_script_raised (h : Host) (self : DockerSandboxRunner)
  (script : string) (e : exn) :
  docker_attempt (docker_daemon h self script)
    {| stdout := ""; stderr := ""; result := None; error := None |}
  = Raises e ->
  docker_execute_script h self script
  = if isinstance e NotFound then
      Raises (Exn RuntimeError ("Docker image/container error: " +:+ exn_msg e))
    else if isinstance e DockerException then
      Raises (Exn RuntimeError ("Docker operation failed: " +:+ exn_msg e))
    else if isinstance e Exception then
      Returns {| stdout := "";
                 stderr := nl +:+ "[Runner Error] " +:+ exn_msg e;
                 result := None;
                 error := Some ("Docker runner unexpected error: " +:+ exn_msg e) |}
    else Raises e.
Proof.
  intros Hraise. unfold docker_execute_script. rewrite Hraise.
  now rewrite image_or_container.
Qed.

(** [Sandbox.run] on what the runner does. *)
Lemma run_of_execute_script (h : Host) (self : Sandbox) (code : string) :
  run h self code
  = match execute_script h (runner self) (_generate_script self code) with
    | Returns r => Returns r
    | Raises e =>
        if isinstance e Exception then
          Returns (failure ("Error in sandbox.run setup: " +:+ exn_msg e +:+ nl
                            +:+ format_exc h e))
        else Raises e
    end.
Proof. reflexivity. Qed.

(** C7, as the code has it.  When the daemon calls of
    [DockerSandboxRunner.execute_script] end in an exception [e]:
    - for [ImageNotFound] and [NotFound] the method raises [RuntimeError]
      "Docker image/container error: ...", and for any other
      [DockerException] it raises [RuntimeError] "Docker operation failed:
      ..."; it returns no outcome, but [Sandbox.run] catches the
      [RuntimeError] and returns it inside an outcome, as the stderr and the
      error "Error in sandbox.run setup: ..." followed by the traceback;
    - for every other [Exception] the method returns an outcome whose error
      is "Docker runner unexpected error: ..." and whose stderr carries the
      annotation "[Runner Error] ...", and [Sandbox.run] returns that
      outcome;
    - an exception that is no [Exception] propagates through both. *)
Theorem docker_failure_kinds (h : Host) (self : DockerSandboxRunner)
  (script : string) (e : exn) :
  docker_attempt (docker_daemon h self script)
    {| stdout := ""; stderr := ""; result := None; error := None |}
  = Raises e ->
  (isinstance e ImageNotFound = true \/ isinstance e NotFound = true ->
   docker_execute_script h self script
   = Raises (Exn RuntimeError ("Docker image/container error: " +:+ exn_msg e))
   /\ forall (sandbox : Sandbox) (code : string),
        runner sandbox = Docker self -> _generate_script sandbox code = script ->
        run h sandbox code
        = Returns (failure
                     ("Error in sandbox.run setup: "
                      +:+ "Docker image/container error: " +:+ exn_msg e +:+ nl
                      +:+ format_exc h
                            (Exn RuntimeError
                               ("Docker image/container error: " +:+ exn_msg e)))))
  /\ (isinstance e NotFound = false -> isinstance e DockerException = true ->
      docker_execute_script h self script
      = Raises (Exn RuntimeError ("Docker operation failed: " +:+ exn_msg e))
      /\ forall (sandbox : Sandbox) (code : string),
           runner sandbox = Docker self -> _generate_script sandbox code = script ->
           run h sandbox code
           = Returns (failure
                        ("Error in sandbox.run setup: "
                         +:+ "Docker operation failed: " +:+ exn_msg e +:+ nl
                         +:+ format_exc h
                               (Exn RuntimeError
                                  ("Docker operation failed: " +:+ exn_msg e)))))
  /\ (isinstance e DockerException = false -> isinstance e Exception = true ->
      docker_execute_script h self script
      = Returns {| stdout := "";
                   stderr := nl +:+ "[Runner Error] " +:+ exn_msg e;
                   result := None;
                   error := Some ("Docker runner unexpected error: "
                                  +:+ exn_msg e) |}
      /\ forall (sandbox : Sandbox) (code : string),
           runner sandbox = Docker self -> _generate_script sandbox code = script ->
           run h sandbox code
           = Returns {| stdout := "";
                        stderr := nl +:+ "[Runner Error] " +:+ exn_msg e;
                        result := None;
                        error := Some ("Docker runner unexpected error: "
                                       +:+ exn_msg e) |})
  /\ (isinstance e Exception = false ->
      docker_execute_script h self script = Raises e
      /\ forall (sandbox : Sandbox) (code : string),
           runner sandbox = Docker self -> _generate_script sandbox code = script ->
           run h sandbox code = Raises e).
Proof.
  intros Hraise. pose proof (docker_execute_script_raised h self script e Hraise) as Hexec.
  assert (Hrun : forall sandbox code,
             runner sandbox = Docker self -> _generate_script sandbox code = script ->
             run h sandbox code
             = match docker_execute_script h self script with
               | Returns r => Returns r
               | Raises e' =>
                   if isinstance e' Exception then
                     Returns (failure ("Error in sandbox.run setup: " +:+ exn_msg e'
                                       +:+ nl +:+ format_exc h e'))
                   else Raises e'
               end).
  { intros sandbox code Hrunner Hscript. rewrite run_of_execute_script.
    now rewrite Hrunner, Hscript. }
  split; [| split; [| split]].
  - intros Hnf.
    assert (Hn : isinstance e NotFound = true)
      by (destruct Hnf as [Hi|Hn]; [now apply ImageNotFound_is_NotFound | exact Hn]).
    rewrite Hn in Hexec. split; [exact Hexec |].
    intros sandbox code Hrunner Hscript. rewrite (Hrun _ _ Hrunner Hscript), Hexec.
    cbn [exn_msg]. change (isinstance (Exn RuntimeError _) Exception) with true.
    cbv iota. now rewrite append_assoc.
  - intros Hn Hd. rewrite Hn, Hd in Hexec. split; [exact Hexec |].
    intros sandbox code Hrunner Hscript. rewrite (Hrun _ _ Hrunner Hscript), Hexec.
    cbn [exn_msg]. change (isinstance (Exn RuntimeError _) Exception) with true.
    cbv iota. now rewrite append_assoc.
  - intros Hd He.
    assert (Hn : isinstance e NotFound = false).
    { destruct (isinstance e NotFound) eqn:Hn; [| reflexivity].
      rewrite (NotFound_is_DockerException e Hn) in Hd. discriminate Hd. }
    rewrite Hn, Hd, He in Hexec. split; [exact Hexec |].
    intros sandbox code Hrunner Hscript. now rewrite (Hrun _ _ Hrunner Hscript), Hexec.
  - intros He.
    assert (Hd : isinstance e DockerException = false).
    { destruct (isinstance e DockerException) eqn:Hd; [| reflexivity].
      rewrite (DockerException_is_Exception e Hd) in He. discriminate He. }
    assert (Hn : isinstance e NotFound = false).
    { destruct (isinstance e NotFound) eqn:Hn; [| reflexivity].
      rewrite (NotFound_is_DockerException e Hn) in Hd. discriminate Hd. }
    rewrite Hn, Hd, He in Hexec. split; [exact Hexec |].
    intros sandbox code Hrunner Hscript.
    now rewrite (Hrun _ _ Hrunner Hscript), Hexec, He.
Qed.

Lemma docker_failure_kinds_witness :
  (docker_execute_script More.host_without_image Demo.docker_runner
     (_generate_script Demo.docker_sandbox Demo.main_code)
   = Raises (Exn RuntimeError "Docker image/container error: no such image")
   /\ run More.host_without_image Demo.docker_sandbox Demo.main_code
      = Returns (failure
                   ("Error in sandbox.run setup: "
                    +:+ "Docker image/container error: " +:+ "no such image" +:+ nl
                    +:+ format_exc More.host_without_image
                          (Exn RuntimeError
                             ("Docker image/container error: " +:+ "no such image")))))
  /\ docker_execute_script Demo.host Demo.docker_runner "daemon"
     = Raises (Exn RuntimeError "Docker operation failed: daemon is down")
  /\ docker_execute_script Demo.host Demo.docker_runner "upload"
     = Returns {| stdout := "";
                  stderr := nl +:+ "[Runner Error] broken pipe";
                  result := None;
                  error := Some "Docker runner unexpected error: broken pipe" |}.
Proof.
  split; [| split].
  - pose proof (proj1 (docker_failure_kinds More.host_without_image
                         Demo.docker_runner
                         (_generate_script Demo.docker_sandbox Demo.main_code)
                         (Exn ImageNotFound "no such image") eq_refl)
                  (or_introl eq_refl)) as [Hraise Hrun].
    split; [exact Hraise |].
    exact (Hrun Demo.docker_sandbox Demo.main_code eq_refl eq_refl).
  - exact (proj1 (proj1 (proj2 (docker_failure_kinds Demo.host Demo.docker_runner
                                  "daemon" (Exn DockerException "daemon is down")
                                  eq_refl))
                    eq_refl eq_refl)).
  - exact (proj1 (proj1 (proj2 (proj2 (docker_failure_kinds Demo.host
                                         Demo.docker_runner "upload"
                                         (Exn (Subclass "BrokenPipeError" OSError)
                                            "broken pipe")
                                         eq_refl)))
                    eq_refl eq_refl)).
Defined.

(** C7 as stated fails on [Sandbox.run]: with the image missing, the
    runner raises, and [run] returns an outcome that carries the error. *)
Lemma missing_image_embedded_by_run :
  docker_execute_script More.host_without_image Demo.docker_runner
    (_generate_script Demo.docker_sandbox Demo.main_code)
  = Raises (Exn RuntimeError "Docker image/container error: no such image")
  /\ run More.host_without_image Demo.docker_sandbox Demo.main_code
     = Returns
         {| stdout := "";
            stderr := "Error in sandbox.run setup: Docker image/container error: no such image"
                      +:+ nl
                      +:+ format_exc More.host_without_image
                            (Exn RuntimeError
                               "Docker image/container error: no such image");
            result := None;
            error := Some
                       ("Error in sandbox.run setup: Docker image/container error: no such image"
                        +:+ nl
                        +:+ format_exc More.host_without_image
                              (Exn RuntimeError
                                 "Docker image/container error: no such image")) |}.
Proof. split; vm_compute; reflexivity. Qed.

End ContainerBackend.

(** ** Setup errors *)

Section Setup.

Lemma kw_set_keywords (k : kwarg) (args : list kwarg) :
  subprocess_keyword k = true ->
  forallb subprocess_keyword args = true ->
  forallb subprocess_keyword (kw_set k args) = true.
Proof.
  intros Hk. induction args as [|k' args IH]; cbn [kw_set forallb].
  - now rewrite Hk.
  - intros [Hk' Hargs]%andb_prop.
    destruct (String.eqb (kw_name k) (kw_name k')); cbn [forallb].
    + now rewrite Hk, Hargs.
    + now rewrite Hk', IH.
Qed.

Lemma merge_keywords (kwargs args : list kwarg) :
  forallb subprocess_keyword kwargs = true ->
  forallb subprocess_keyword args = true ->
  forallb subprocess_keyword (fold_left (fun args k => kw_set k args) kwargs args)
  = true.
Proof.
  revert args. induction kwargs as [|k kwargs IH]; intros args; cbn [fold_left forallb].
  - trivial.
  - intros [Hk Hkw]%andb_prop Hargs. apply IH; [exact Hkw |].
    now apply kw_set_keywords.
Qed.

(** Keywords the constructor has always bind. *)
Lemma subprocess_bind_all (args : list kwarg) (p : subprocess_params) :
  forallb subprocess_keyword args = true ->
  exists p', bind_all subprocess_bind p args = Returns p'.
Proof.
  revert p. induction args as [|k args IH]; intros p; cbn [bind_all forallb].
  - eauto.
  - intros [Hk Hargs]%andb_prop.
    destruct k; try discriminate Hk; cbn [subprocess_bind bind]; now apply IH.
Qed.

(** C8. [Sandbox.__init__] raises [ValueError] for a runner type that is
    neither "subprocess" nor "docker"; [SubprocessSandboxRunner.__init__]
    raises [FileNotFoundError] when [shutil.which("uv")] finds nothing; and
    [Sandbox.__init__] for the process backend, given keyword arguments
    that constructor has, raises that [FileNotFoundError] again.  In each
    case the constructor raises: no sandbox or runner exists that could
    execute anything. *)
Theorem setup_errors_raise (h : Host) (deps : option Dependencies)
  (settings : option (list (string * pyval))) (runner_type : string)
  (environment : option (gmap string string)) (timeout : option pyfloat)
  (allow_network : bool) (allowed_env_vars : option (list string))
  (runner_kwargs : option (list kwarg)) :
  (runner_type <> "subprocess" -> runner_type <> "docker" ->
   Sandbox_init h deps settings runner_type environment timeout allow_network
     allowed_env_vars runner_kwargs
   = Raises (Exn ValueError
               ("Unknown runner_type '" +:+ runner_type
                +:+ "'. Use: ['subprocess', 'docker']")))
  /\ (truthy_opt (which h "uv") = false ->
      (forall (allowed : option (gset string)) (cpu_time_limit memory_limit : option Z),
          SubprocessSandboxRunner_init h environment timeout allowed
            cpu_time_limit memory_limit
          = Raises (Exn FileNotFoundError
                      "The 'uv' command was not found in the system PATH."))
      /\ (forallb subprocess_keyword (default [] runner_kwargs) = true ->
          Sandbox_init h deps settings "subprocess" environment timeout
            allow_network allowed_env_vars runner_kwargs
          = Raises (Exn FileNotFoundError
                      ("Failed to init runner 'subprocess': "
                       +:+ "The 'uv' command was not found in the system PATH.")))).
Proof.
  split.
  - intros Hs Hd. unfold Sandbox_init, _RUNNER_CLASSES. cbn [existsb].
    apply String.eqb_neq in Hs, Hd. now rewrite Hs, Hd.
  - intros Huv.
    assert (Hinit : forall env t a c m,
               SubprocessSandboxRunner_init h env t a c m
               = Raises (Exn FileNotFoundError
                           "The 'uv' command was not found in the system PATH.")).
    { intros. unfold SubprocessSandboxRunner_init. now rewrite Huv. }
    split; [intros; apply Hinit |].
    intros Hkw. unfold Sandbox_init, _RUNNER_CLASSES, construct_runner.
    cbn [existsb String.eqb Ascii.eqb Bool.eqb orb negb andb].
    match goal with
    | |- context [bind_all subprocess_bind subprocess_defaults ?args] =>
        destruct (subprocess_bind_all args subprocess_defaults) as [p Hp]
    end.
    { apply merge_keywords; [exact Hkw | reflexivity]. }
    rewrite Hp. cbn [bind]. rewrite Hinit. reflexivity.
Qed.

Lemma setup_errors_raise_witness :
  Sandbox_init Demo.host None None "invalid_runner" None (Some "60.0") false
    None None
  = Raises (Exn ValueError
              "Unknown runner_type 'invalid_runner'. Use: ['subprocess', 'docker']")
  /\ Sandbox_init Demo.host None None "subprocess" None (Some "60.0") false
       None (Some [KwCpuTimeLimit (Some 5%Z)])
     = Raises (Exn FileNotFoundError
                 "Failed to init runner 'subprocess': The 'uv' command was not found in the system PATH.").
Proof.
  split.
  - refine (proj1 (setup_errors_raise Demo.host None None "invalid_runner"
                     None (Some "60.0") false None None) _ _); discriminate.
  - exact (proj2 (proj2 (setup_errors_raise Demo.host None None "subprocess"
                           None (Some "60.0") false None
                           (Some [KwCpuTimeLimit (Some 5%Z)])) eq_refl) eq_refl).
Defined.

(** The constructors consult the host only through [shutil.which] and
    [os.environ]: they write no file, start no process and call no
    daemon. *)
Lemma constructors_do_not_execute (h h' : Host) (deps : option Dependencies)
  (settings : option (list (string * pyval))) (runner_type : string)
  (environment : option (gmap string string)) (timeout : option pyfloat)
  (allow_network : bool) (allowed_env_vars : option (list string))
  (runner_kwargs : option (list kwarg)) :
  which h = which h' -> os_environ h = os_environ h' ->
  Sandbox_init h deps settings runner_type environment timeout allow_network
    allowed_env_vars runner_kwargs
  = Sandbox_init h' deps settings runner_type environment timeout allow_network
      allowed_env_vars runner_kwargs.
Proof.
  intros Hw He.
  assert (Hinit : forall env t a c m,
             SubprocessSandboxRunner_init h env t a c m
             = SubprocessSandboxRunner_init h' env t a c m).
  { intros. unfold SubprocessSandboxRunner_init, subprocess_filtered_env,
      inject_default, inject_temp. cbn [fold_left]. now rewrite Hw, He. }
  unfold Sandbox_init.
  destruct (negb (existsb (String.eqb runner_type) _RUNNER_CLASSES));
    [reflexivity |].
  unfold construct_runner.
  destruct (String.eqb runner_type "docker"); [reflexivity |].
  cbn [andb].
  destruct (bind_all subprocess_bind subprocess_defaults _) as [p|e];
    cbn [bind]; [| reflexivity].
  now rewrite Hinit.
Qed.

End Setup.

(** ** The outcome of [run_function] *)

Section Outcome.
Variable json_dumps : pyval -> outcome string.
Variable json_loads : string -> Json.decoded.

Variables (h : Host) (self : Sandbox) (code func_name : string)
  (inputs : option (list (string * pyval))) (is_async : bool).

(** [run_function] once the script is built and the runner has returned. *)
Lemma run_function_returned (script : string) (r : Result) :
  _generate_function_script json_dumps self code func_name inputs is_async
  = Returns script ->
  execute_script h (runner self) script = Returns r ->
  run_function json_dumps json_loads h self code func_name inputs is_async
  = match decode_exec_result json_loads r with
    | Returns r' => Returns r'
    | Raises e => run_function_except h e
    end.
Proof. intros Hs Hr. unfold run_function. rewrite Hs. cbn [bind]. now rewrite Hr. Qed.

(** [run_function] when the runner raises. *)
Lemma run_function_runner_raised (script : string) (e : exn) :
  _generate_function_script json_dumps self code func_name inputs is_async
  = Returns script ->
  execute_script h (runner self) script = Raises e ->
  run_function json_dumps json_loads h self code func_name inputs is_async
  = run_function_except h e.
Proof. intros Hs Hr. unfold run_function. rewrite Hs. cbn [bind]. now rewrite Hr. Qed.

Lemma length_output_preview (out : string) :
  String.length (output_preview out) <= 1003.
Proof.
  unfold output_preview.
  destruct (Nat.ltb_spec 1000 (String.length out)) as [Hlong|Hshort].
  - rewrite length_append. unfold slice_to.
    pose proof (length_substring_le 0 1000 out). cbn [String.length]. lia.
  - lia.
Qed.

(** What handling a decoded dictionary raises is a [TypeError]. *)
Lemma merge_parsed_output_raised (r : Result) (d : list (string * pyval)) (e : exn) :
  merge_parsed_output r d = Raises e ->
  exists v : pyval,
    PyDict.get "error" d = Some v /\ (forall s, v <> PStr s)
    /\ e = Exn TypeError ("'in <string>' requires string as left operand, not "
                          +:+ type_name_of v).
Proof.
  unfold merge_parsed_output.
  destruct (PyDict.get "error" d) as [v|].
  - destruct v;
      try (intros [= <-]; eexists; split; [reflexivity |]; split;
           [discriminate | reflexivity]).
    match goal with
    | |- context [negb (contains s ?x)] => destruct (negb (contains s x))
    end; discriminate.
  - destruct (negb (PyDict.mem "result" d)); discriminate.
Qed.

(** The statements of [run_function] after [execute_script], when the
    runner reports no error and the stdout is not empty: by what
    [json.loads] does with the stripped stdout. *)
Lemma decode_exec_result_stdout (r : Result) :
  truthy_opt (error r) = false -> stdout r <> "" ->
  decode_exec_result json_loads r
  = match json_loads (strip (stdout r)) with
    | Json.Decoded (PDict d) => merge_parsed_output r d
    | Json.Decoded _ =>
        Returns (set_error r "Script JSON output was not a dictionary.")
    | Json.JSONDecodeError msg =>
        Returns (set_error r
                   ("Failed to parse JSON from stdout: "
                    +:+ "Failed to decode JSON result from stdout: " +:+ msg
                    +:+ ". Output preview: " +:+ output_preview (stdout r)))
    | Json.Raised e =>
        if isinstance e ValueError then
          Returns (set_error r ("Failed to parse JSON from stdout: " +:+ exn_msg e))
        else Raises e
    end.
Proof.
  intros He Hout. apply truthy_true_iff in Hout.
  unfold decode_exec_result, parse_stdout, decode_result_from_stdout.
  rewrite He, Hout.
  destruct (json_loads (strip (stdout r))) as [v|msg|e]; cbn [bind];
    [| reflexivity | reflexivity].
  destruct v as [| | | | |l|d|n]; try reflexivity.
  destruct (merge_parsed_output r d) as [r'|e] eqn:Hm; [reflexivity |].
  destruct (merge_parsed_output_raised r d e Hm) as (v & _ & _ & ->).
  reflexivity.
Qed.

(** A guest error that is a string: what becomes of the runner's outcome. *)
Lemma merge_guest_error (r : Result) (d : list (string * pyval))
  (script_error : string) :
  PyDict.get "error" d = Some (PStr script_error) ->
  exists out : Result,
    merge_parsed_output r d = Returns out
    /\ stdout out = stdout r
    /\ stderr out = (if contains script_error (stderr r) then stderr r
                     else strip (stderr r +:+ nl +:+ script_error))
    /\ result out = match PyDict.get "result" d with
                    | Some v => Some v
                    | None => result r
                    end
    /\ error out
       = Some ("Script Error: " +:+ script_error
               +:+ (if truthy (stderr r) && negb (contains script_error (stderr r))
                    then nl +:+ "--- Runner Stderr ---" +:+ nl +:+ stderr r
                    else "")).
Proof.
  intros Herr. unfold merge_parsed_output. rewrite Herr.
  destruct (PyDict.get "result" d) as [v|]; cbn [stderr set_result];
    destruct (truthy (stderr r)); destruct (contains script_error (stderr r));
    cbn [negb andb]; eexists; (split; [reflexivity |]);
    cbn [stdout stderr result error set_error set_stderr set_result];
    rewrite ?append_assoc, ?append_nil_r; auto.
Qed.

(** C4. When the runner's outcome already carries an error (a non-empty
    message, which is what [exec_result.get("error")] tests and what both
    runners of the package produce), [run_function] returns that outcome
    as it is; this holds whatever [json.loads] would do, so nothing is
    decoded. *)
Theorem backend_error_passes_through (script : string) (r : Result) :
  _generate_function_script json_dumps self code func_name inputs is_async
  = Returns script ->
  execute_script h (runner self) script = Returns r ->
  truthy_opt (error r) = true ->
  run_function json_dumps json_loads h self code func_name inputs is_async
  = Returns r.
Proof.
  intros Hs Hr He. rewrite (run_function_returned script r Hs Hr).
  unfold decode_exec_result. now rewrite He.
Qed.

(** C10. When the runner's outcome has no error, an empty stdout, an empty
    stderr and no structured result, [run_function] returns it as it is:
    the error stays unset and the result absent. *)
Theorem silent_outcome_unchanged (script : string) (r : Result) :
  _generate_function_script json_dumps self code func_name inputs is_async
  = Returns script ->
  execute_script h (runner self) script = Returns r ->
  error r = None -> stdout r = "" -> stderr r = "" -> result r = None ->
  exists out : Result,
    run_function json_dumps json_loads h self code func_name inputs is_async
    = Returns out
    /\ out = r /\ error out = None /\ result out = None.
Proof.
  intros Hs Hr He Hout Herr Hres. rewrite (run_function_returned script r Hs Hr).
  unfold decode_exec_result. rewrite He, Hout, Herr. cbn [truthy_opt truthy].
  exists r. auto.
Qed.

(** C1, as the code has it.  With no backend error and a non-empty stdout,
    [run_function] hands the whole stdout, stripped of surrounding
    whitespace, to [json.loads].
    - If that raises [JSONDecodeError] with message [msg], the outcome's
      error is "Failed to parse JSON from stdout: Failed to decode JSON
      result from stdout: <msg>. Output preview: <preview>", where the
      preview is the stdout itself up to 1000 characters and otherwise its
      first 1000 characters followed by "...".
    - If it raises another [ValueError], the outcome's error is "Failed to
      parse JSON from stdout: <str(e)>", without a preview; if it raises
      another [Exception], [run_function] returns the setup failure, whose
      stdout is empty; an exception that is no [Exception] propagates.
    - A decoded value that is not a dictionary, and a dictionary with
      neither key, are reported as such; a dictionary with [result] and no
      [error] gives the structured result. *)
Theorem stdout_decoded_whole (script : string) (r : Result) :
  _generate_function_script json_dumps self code func_name inputs is_async
  = Returns script ->
  execute_script h (runner self) script = Returns r ->
  truthy_opt (error r) = false ->
  stdout r <> "" ->
  let out := run_function json_dumps json_loads h self code func_name inputs
               is_async in
  (forall msg : string,
      json_loads (strip (stdout r)) = Json.JSONDecodeError msg ->
      out = Returns (set_error r
                       ("Failed to parse JSON from stdout: "
                        +:+ "Failed to decode JSON result from stdout: " +:+ msg
                        +:+ ". Output preview: " +:+ output_preview (stdout r))))
  /\ (forall e : exn,
        json_loads (strip (stdout r)) = Json.Raised e ->
        (isinstance e ValueError = true ->
         out = Returns (set_error r
                          ("Failed to parse JSON from stdout: " +:+ exn_msg e)))
        /\ (isinstance e ValueError = false -> isinstance e Exception = true ->
            out = Returns (failure
                             ("Error in sandbox.run_function setup: " +:+ exn_msg e
                              +:+ nl +:+ format_exc h e)))
        /\ (isinstance e Exception = false -> out = Raises e))
  /\ (forall v : pyval,
        json_loads (strip (stdout r)) = Json.Decoded v ->
        (forall d, v <> PDict d) ->
        out = Returns (set_error r "Script JSON output was not a dictionary."))
  /\ (forall (d : list (string * pyval)) (v : pyval),
        json_loads (strip (stdout r)) = Json.Decoded (PDict d) ->
        PyDict.get "result" d = Some v -> PyDict.get "error" d = None ->
        out = Returns (set_result r v))
  /\ (forall d : list (string * pyval),
        json_loads (strip (stdout r)) = Json.Decoded (PDict d) ->
        PyDict.get "result" d = None -> PyDict.get "error" d = None ->
        out = Returns (set_error r
                         "Script JSON output missing 'result' or 'error'."))
  /\ String.length (output_preview (stdout r)) <= 1003
  /\ (String.length (stdout r) <= 1000 -> output_preview (stdout r) = stdout r)
  /\ (1000 < String.length (stdout r) ->
      output_preview (stdout r) = slice_to 1000 (stdout r) +:+ "...").
Proof.
  intros Hs Hr He Hout out. subst out.
  rewrite (run_function_returned script r Hs Hr).
  rewrite (decode_exec_result_stdout r He Hout).
  repeat match goal with |- _ /\ _ => split end.
  - intros msg ->. reflexivity.
  - intros e ->. split; [| split].
    + intros Hv. now rewrite Hv.
    + intros Hv Hex. rewrite Hv. unfold run_function_except. now rewrite Hv, Hex.
    + intros Hex.
      assert (Hv : isinstance e ValueError = false).
      { destruct (isinstance e ValueError) eqn:Hv; [| reflexivity].
        rewrite (ValueError_is_Exception e Hv) in Hex. discriminate Hex. }
      rewrite Hv. unfold run_function_except. now rewrite Hv, Hex.
  - intros v -> Hnd. destruct v; try reflexivity. now destruct (Hnd d).
  - intros d v -> Hres Herr. unfold merge_parsed_output, PyDict.mem.
    now rewrite Hres, Herr.
  - intros d -> Hres Herr. unfold merge_parsed_output, PyDict.mem.
    now rewrite Hres, Herr.
  - apply length_output_preview.
  - intros Hlen. unfold output_preview.
    destruct (Nat.ltb_spec 1000 (String.length (stdout r))); [lia | reflexivity].
  - intros Hlen. unfold output_preview.
    destruct (Nat.ltb_spec 1000 (String.length (stdout r))); [reflexivity | lia].
Qed.

(** C5, as the code has it.  When the decoded dictionary carries an
    [error] that is a string, the outcome's error is "Script Error: "
    followed by the guest error, and the runner's stderr is appended under
    the heading "--- Runner Stderr ---" exactly when it is non-empty and
    the guest error is not a substring of it. *)
Theorem guest_error_combined (script : string) (r : Result)
  (d : list (string * pyval)) (script_error : string) :
  _generate_function_script json_dumps self code func_name inputs is_async
  = Returns script ->
  execute_script h (runner self) script = Returns r ->
  truthy_opt (error r) = false ->
  stdout r <> "" ->
  json_loads (strip (stdout r)) = Json.Decoded (PDict d) ->
  PyDict.get "error" d = Some (PStr script_error) ->
  exists out : Result,
    run_function json_dumps json_loads h self code func_name inputs is_async
    = Returns out
    /\ error out
       = Some ("Script Error: " +:+ script_error
               +:+ (if truthy (stderr r) && negb (contains script_error (stderr r))
                    then nl +:+ "--- Runner Stderr ---" +:+ nl +:+ stderr r
                    else "")).
Proof.
  intros Hs Hr He Hout Hd Herr.
  rewrite (run_function_returned script r Hs Hr).
  rewrite (decode_exec_result_stdout r He Hout), Hd.
  destruct (merge_guest_error r d script_error Herr) as (out & -> & _ & _ & _ & Hout').
  exists out. auto.
Qed.

End Outcome.

(** ** The outcome of [run_function] on concrete outputs *)

Section OutcomeExamples.
Import Demo.

Lemma script_of_answering (r : Result) :
  _generate_function_script json_dumps (answering r) main_code "main" None false
  = Returns main_script.
Proof. vm_compute. reflexivity. Qed.

Lemma backend_error_passes_through_witness :
  run_function json_dumps json_loads host (answering runner_failed) main_code "main"
    None false
  = Returns runner_failed.
Proof.
  apply (backend_error_passes_through json_dumps json_loads host
           (answering runner_failed) main_code "main" None false main_script
           runner_failed);
    vm_compute; reflexivity.
Defined.

Lemma silent_outcome_unchanged_witness :
  exists out : Result,
    run_function json_dumps json_loads host (answering (plain "" "")) main_code
      "main" None false
    = Returns out
    /\ out = plain "" "" /\ error out = None /\ result out = None.
Proof.
  apply (silent_outcome_unchanged json_dumps json_loads host (answering (plain "" ""))
           main_code "main" None false main_script (plain "" ""));
    vm_compute; reflexivity.
Defined.

Lemma stdout_decoded_whole_witness :
  run_function json_dumps json_loads host (answering (plain "not json" ""))
    main_code "main" None false
  = Returns (set_error (plain "not json" "")
               "Failed to parse JSON from stdout: Failed to decode JSON result from stdout: Expecting value. Output preview: not json")
  /\ run_function json_dumps json_loads host
       (answering (plain (q "{`result`: 7}") "")) main_code "main" None false
     = Returns (set_result (plain (q "{`result`: 7}") "") (PInt 7))
  /\ run_function json_dumps More.loads_digit_limit host
       (answering (plain "11111" "")) main_code "main" None false
     = Returns (set_error (plain "11111" "")
                  ("Failed to parse JSON from stdout: "
                   +:+ exn_msg More.digit_limit))
  /\ run_function json_dumps More.loads_recursion_limit host
       (answering (plain "[[[[" "")) main_code "main" None false
     = Returns (failure ("Error in sandbox.run_function setup: "
                         +:+ exn_msg More.recursion_limit +:+ nl
                         +:+ format_exc host More.recursion_limit)).
Proof.
  split; [| split; [| split]].
  - pose proof (stdout_decoded_whole json_dumps json_loads host
                  (answering (plain "not json" "")) main_code "main" None false
                  main_script (plain "not json" "") (script_of_answering _)
                  eq_refl eq_refl ltac:(discriminate)) as H.
    cbv zeta in H. destruct H as (Hfail & _).
    apply (Hfail "Expecting value"). vm_compute. reflexivity.
  - pose proof (stdout_decoded_whole json_dumps json_loads host
                  (answering (plain (q "{`result`: 7}") "")) main_code "main"
                  None false main_script (plain (q "{`result`: 7}") "")
                  (script_of_answering _) eq_refl eq_refl
                  ltac:(vm_compute; discriminate)) as H.
    cbv zeta in H. destruct H as (_ & _ & _ & Hres & _).
    apply (Hres [("result", PInt 7)] (PInt 7)); vm_compute; reflexivity.
  - pose proof (stdout_decoded_whole json_dumps More.loads_digit_limit host
                  (answering (plain "11111" "")) main_code "main" None false
                  main_script (plain "11111" "") (script_of_answering _)
                  eq_refl eq_refl ltac:(discriminate)) as H.
    cbv zeta in H. destruct H as (_ & Hraised & _).
    exact (proj1 (Hraised More.digit_limit eq_refl) eq_refl).
  - pose proof (stdout_decoded_whole json_dumps More.loads_recursion_limit host
                  (answering (plain "[[[[" "")) main_code "main" None false
                  main_script (plain "[[[[" "") (script_of_answering _)
                  eq_refl eq_refl ltac:(discriminate)) as H.
    cbv zeta in H. destruct H as (_ & Hraised & _).
    exact (proj1 (proj2 (Hraised More.recursion_limit eq_refl)) eq_refl eq_refl).
Defined.

(** C1 as stated fails: the last line of this stdout decodes to a result,
    and [run_function] reports a decoding error, because it decodes the
    whole stdout. *)
Lemma last_line_is_not_decoded :
  Json.loads (last_line chatty_stdout)
  = Some (Json.Decoded (PDict [("result", PInt 7)]))
  /\ Json.loads (strip chatty_stdout) = Some (Json.JSONDecodeError "Expecting value")
  /\ run_function json_dumps json_loads host (answering (plain chatty_stdout ""))
       main_code "main" None false
     = Returns
         {| stdout := chatty_stdout; stderr := ""; result := None;
            error := Some ("Failed to parse JSON from stdout: Failed to decode JSON result from stdout: Expecting value. Output preview: "
                           +:+ chatty_stdout) |}.
Proof. split; [| split]; vm_compute; reflexivity. Qed.

Lemma guest_error_combined_witness :
  exists out : Result,
    run_function json_dumps json_loads host
      (answering (plain (q "{`error`: `boom`}") "warning: slow"))
      main_code "main" None false
    = Returns out
    /\ error out
       = Some ("Script Error: " +:+ "boom"
               +:+ (nl +:+ "--- Runner Stderr ---" +:+ nl +:+ "warning: slow")).
Proof.
  apply (guest_error_combined json_dumps json_loads host
           (answering (plain (q "{`error`: `boom`}") "warning: slow"))
           main_code "main" None false main_script
           (plain (q "{`error`: `boom`}") "warning: slow")
           [("error", PStr "boom")] "boom");
    try (vm_compute; reflexivity).
  vm_compute. discriminate.
Defined.

(** C5 as stated fails: the runner's stderr ["a"] is a substring of the
    guest error ["ab"], and it is appended all the same, because the code
    asks whether the guest error is a substring of the stderr. *)
Lemma stderr_appended_although_contained :
  contains (stderr guest_error) "ab" = true
  /\ Json.loads (strip (stdout guest_error))
     = Some (Json.Decoded (PDict [("error", PStr "ab")]))
  /\ run_function json_dumps json_loads host (answering guest_error) main_code "main"
       None false
     = Returns
         {| stdout := stdout guest_error;
            stderr := "a" +:+ nl +:+ "ab";
            result := None;
            error := Some ("Script Error: ab" +:+ nl +:+ "--- Runner Stderr ---"
                           +:+ nl +:+ "a") |}.
Proof. split; [| split]; vm_compute; reflexivity. Qed.

(** A guest error that is not a string makes the substring test raise
    [TypeError], which [run_function] reports as a setup error. *)
Lemma non_string_guest_error :
  run_function json_dumps json_loads host (answering (plain (q "{`error`: 5}") ""))
    main_code "main" None false
  = Returns (failure ("Error in sandbox.run_function setup: "
                      +:+ "'in <string>' requires string as left operand, not int"
                      +:+ nl
                      +:+ format_exc host
                            (Exn TypeError
                               "'in <string>' requires string as left operand, not int"))).
Proof. vm_compute. reflexivity. Qed.

(** The cases of the package's own tests for [run_function]. *)
Example test_sandbox_run_function_sync :
  run_function json_dumps json_loads host (answering (plain (q "{`result`: 5}") ""))
    "def process(a, b=2): return a + b" "process"
    (Some [("a", PInt 3); ("b", PInt 2)]) false
  = Returns (set_result (plain (q "{`result`: 5}") "") (PInt 5)).
Proof. vm_compute. reflexivity. Qed.

Example test_sandbox_run_function_script_error :
  let runner_stderr := "Error during execution: ValueError: Bad input..." in
  exists out : Result,
    run_function json_dumps json_loads host
      (answering
         (plain (q "{`error`: `Error during execution: ValueError: Bad input\\nTraceback...`}")
            runner_stderr))
      "def main(): raise ValueError('Bad input')" "main" None false
    = Returns out
    /\ result out = None
    /\ error out
       = Some ("Script Error: Error during execution: ValueError: Bad input\nTraceback..."
               +:+ nl +:+ "--- Runner Stderr ---" +:+ nl +:+ runner_stderr).
Proof. eexists. vm_compute. repeat split; reflexivity. Qed.

Example test_sandbox_run_function_invalid_json_output :
  exists out : Result,
    run_function json_dumps json_loads host
      (answering (plain "This is not JSON { invalid" "")) main_code "main"
      None false
    = Returns out
    /\ error out
       = Some "Failed to parse JSON from stdout: Failed to decode JSON result from stdout: Expecting value. Output preview: This is not JSON { invalid".
Proof. eexists. vm_compute. split; reflexivity. Qed.

End OutcomeExamples.

(** * Further properties of the package *)

(** ** Stripping and searching *)

Section StripFacts.

Lemma length_lstrip_le (s : string) : String.length (lstrip s) <= String.length s.
Proof.
  induction s as [|c s IH]; cbn [lstrip String.length]; [lia |].
  destruct (isspace c); cbn [String.length]; lia.
Qed.

Lemma length_rstrip_le (s : string) : String.length (rstrip s) <= String.length s.
Proof.
  induction s as [|c s IH]; cbn [rstrip String.length]; [lia |].
  destruct (rstrip s) as [|x r]; [destruct (isspace c) |]; cbn [String.length] in *; lia.
Qed.

(** A string that stripping leaves alone has no whitespace at either end. *)
Lemma strip_fixed (s : string) : strip s = s -> lstrip s = s /\ rstrip s = s.
Proof.
  unfold strip. intros H.
  assert (Hl : lstrip s = s).
  { destruct s as [|c s]; [reflexivity |].
    cbn [lstrip] in *. destruct (isspace c); [| reflexivity].
    pose proof (length_rstrip_le (lstrip s)) as H1.
    pose proof (length_lstrip_le s) as H2.
    rewrite H in H1. cbn [String.length] in H1. lia. }
  split; [exact Hl | now rewrite Hl in H].
Qed.

Lemma lstrip_app (a s : string) :
  lstrip (a +:+ s) = match lstrip a with "" => lstrip s | r => r +:+ s end.
Proof.
  induction a as [|c a IH]; [reflexivity |].
  change (String c a +:+ s) with (String c (a +:+ s)). cbn [lstrip].
  destruct (isspace c); [exact IH | reflexivity].
Qed.

Lemma rstrip_app (a s : string) :
  rstrip (a +:+ s) = match rstrip s with "" => rstrip a | r => a +:+ r end.
Proof.
  induction a as [|c a IH].
  - change ("" +:+ s) with s. now destruct (rstrip s).
  - change (String c a +:+ s) with (String c (a +:+ s)). cbn [rstrip].
    rewrite IH. destruct (rstrip s) as [|x r]; [reflexivity |].
    now destruct a.
Qed.

Lemma contains_skip (x a b : string) :
  contains x b = true -> contains x (a +:+ b) = true.
Proof.
  intros Hb. induction a as [|c a IH]; [exact Hb |].
  change (String c a +:+ b) with (String c (a +:+ b)). cbn [contains].
  now destruct (String.prefix x (String c (a +:+ b))).
Qed.

Lemma contains_app_l (x b : string) : contains x (x +:+ b) = true.
Proof. apply contains_prefix, prefix_append. Qed.

Lemma contains_empty (hay : string) : contains "" hay = true.
Proof. now destruct hay. Qed.

(** Stripping a text that ends in a stripped, non-empty [s] keeps [s]. *)
Lemma contains_strip_app (a s : string) :
  strip s = s -> contains s (strip (a +:+ s)) = true.
Proof.
  intros Hs. destruct (strip_fixed s Hs) as [Hl Hr].
  destruct s as [|c s]; [apply contains_empty |].
  unfold strip. rewrite lstrip_app, Hl.
  destruct (lstrip a) as [|x r].
  - rewrite Hr. exact (contains_suffix (String c s) "").
  - rewrite rstrip_app, Hr. apply contains_suffix.
Qed.

End StripFacts.

(** ** Dictionaries in insertion order *)

Section DictFacts.
Context {V : Type}.
Implicit Types (d : list (string * V)) (k : string) (v : V).

Lemma get_set_eq k v d : PyDict.get k (PyDict.set k v d) = Some v.
Proof.
  induction d as [|[k' v'] d IH]; cbn [PyDict.set PyDict.get].
  - now rewrite String.eqb_refl.
  - destruct (String.eqb k k') eqn:E; cbn [PyDict.get]; rewrite ?E, ?String.eqb_refl;
      [reflexivity | exact IH].
Qed.

Lemma get_set_ne k k' v d : k <> k' -> PyDict.get k' (PyDict.set k v d) = PyDict.get k' d.
Proof.
  intros Hne. induction d as [|[k0 v0] d IH]; cbn [PyDict.set PyDict.get].
  - apply not_eq_sym in Hne. apply String.eqb_neq in Hne. now rewrite Hne.
  - destruct (String.eqb k k0) eqn:E; cbn [PyDict.get].
    + apply String.eqb_eq in E. subst k0.
      apply not_eq_sym in Hne. apply String.eqb_neq in Hne. now rewrite Hne.
    + destruct (String.eqb k' k0); [reflexivity | exact IH].
Qed.

Lemma get_None_not_key k d : PyDict.get k d = None <-> ~ In k (map fst d).
Proof.
  induction d as [|[k' v'] d IH]; cbn [PyDict.get map fst In]; [tauto |].
  destruct (String.eqb_spec k k') as [->|Hne].
  - split; [discriminate | intros H; exfalso; apply H; now left].
  - rewrite IH. split; [intros H [E|E]; [congruence | tauto] | tauto].
Qed.

End DictFacts.

(** ** More on the outcome of [run_function] *)

Section OutcomeMore.
Variable json_dumps : pyval -> outcome string.
Variable json_loads : string -> Json.decoded.

Variables (h : Host) (self : Sandbox) (code func_name : string)
  (inputs : option (list (string * pyval))) (is_async : bool).

(** X1. With no backend error, an empty stdout and a non-empty stderr, the
    outcome's error is "Execution failed (no stdout). Stderr: " followed by
    the first 1000 characters of stderr, so at most 1038 characters long;
    stdout, stderr and result are left as the runner returned them. *)
Theorem no_stdout_reports_stderr (script : string) (r : Result) :
  _generate_function_script json_dumps self code func_name inputs is_async
  = Returns script ->
  execute_script h (runner self) script = Returns r ->
  truthy_opt (error r) = false -> stdout r = "" -> stderr r <> "" ->
  run_function json_dumps json_loads h self code func_name inputs is_async
  = Returns (set_error r ("Execution failed (no stdout). Stderr: "
                          +:+ slice_to 1000 (stderr r)))
  /\ String.length ("Execution failed (no stdout). Stderr: "
                    +:+ slice_to 1000 (stderr r)) <= 1038.
Proof.
  intros Hs Hr He Hout Herr.
  rewrite (run_function_returned json_dumps json_loads h self code func_name inputs
             is_async script r Hs Hr).
  apply truthy_true_iff in Herr.
  unfold decode_exec_result. rewrite He, Hout, Herr. cbn [truthy].
  split; [reflexivity |].
  rewrite length_append. unfold slice_to.
  pose proof (length_substring_le 0 1000 (stderr r)). cbn [String.length]. lia.
Qed.

(** X2. Success means a decoded result: when the runner's outcome has no
    error, its stdout is non-empty and [run_function] returns an outcome
    without error, then the stripped stdout decoded to a dictionary with a
    [result] key and no [error] key, and the outcome is the runner's with
    that result stored. *)
Theorem success_means_result (script : string) (r out : Result) :
  _generate_function_script json_dumps self code func_name inputs is_async
  = Returns script ->
  execute_script h (runner self) script = Returns r ->
  error r = None -> stdout r <> "" ->
  run_function json_dumps json_loads h self code func_name inputs is_async
  = Returns out ->
  error out = None ->
  exists (d : list (string * pyval)) (v : pyval),
    json_loads (strip (stdout r)) = Json.Decoded (PDict d)
    /\ PyDict.get "result" d = Some v
    /\ PyDict.get "error" d = None
    /\ out = set_result r v.
Proof.
  intros Hs Hr He Hout.
  rewrite (run_function_returned json_dumps json_loads h self code func_name inputs
             is_async script r Hs Hr).
  assert (He' : truthy_opt (error r) = false) by now rewrite He.
  rewrite (decode_exec_result_stdout json_loads r He' Hout).
  destruct (json_loads (strip (stdout r))) as [v|msg|e].
  - destruct v as [| | | | |l|d|n]; try (intros [= <-]; discriminate).
    destruct (PyDict.get "error" d) as [e|] eqn:Herr.
    + destruct (merge_parsed_output r d) as [r'|e'] eqn:Hm.
      * intros [= <-] Hnone. exfalso.
        unfold merge_parsed_output in Hm. rewrite Herr in Hm.
        destruct e; try discriminate Hm.
        match type of Hm with
        | context [negb (contains s ?x)] => destruct (negb (contains s x))
        end; injection Hm as <-; discriminate Hnone.
      * destruct (merge_parsed_output_raised r d e' Hm) as (v & _ & _ & ->).
        intros [= <-]; discriminate.
    + unfold merge_parsed_output, PyDict.mem. rewrite Herr.
      destruct (PyDict.get "result" d) as [v|] eqn:Hres; cbn [negb].
      * intros [= <-] _. exists d, v. auto.
      * intros [= <-]; discriminate.
  - intros [= <-]; discriminate.
  - destruct (isinstance e ValueError) eqn:Hv; [intros [= <-]; discriminate |].
    unfold run_function_except. rewrite Hv.
    destruct (isinstance e Exception); [intros [= <-] |]; discriminate.
Qed.

(** X3. When [run_function] returns an outcome built from the runner's, it
    keeps the captured stdout.  The stdout is lost, in the setup-failure
    outcome, in two cases: a guest error that is not a string, and an
    exception of [json.loads] that is an [Exception] and no [ValueError]
    (as the [RecursionError] of a deeply nested text). *)
Theorem stdout_kept (script : string) (r : Result) :
  _generate_function_script json_dumps self code func_name inputs is_async
  = Returns script ->
  execute_script h (runner self) script = Returns r ->
  ((forall d v, json_loads (strip (stdout r)) = Json.Decoded (PDict d) ->
                PyDict.get "error" d = Some v -> exists s, v = PStr s) ->
   (forall e, json_loads (strip (stdout r)) = Json.Raised e ->
              isinstance e ValueError = true) ->
   exists out : Result,
     run_function json_dumps json_loads h self code func_name inputs is_async
     = Returns out
     /\ stdout out = stdout r)
  /\ (forall d v,
         truthy_opt (error r) = false -> stdout r <> "" ->
         json_loads (strip (stdout r)) = Json.Decoded (PDict d) ->
         PyDict.get "error" d = Some v -> (forall s, v <> PStr s) ->
         run_function json_dumps json_loads h self code func_name inputs is_async
         = Returns
             (failure ("Error in sandbox.run_function setup: "
                       +:+ "'in <string>' requires string as left operand, not "
                       +:+ type_name_of v +:+ nl
                       +:+ format_exc h
                             (Exn TypeError
                                ("'in <string>' requires string as left operand, not "
                                 +:+ type_name_of v)))))
  /\ (forall e,
         truthy_opt (error r) = false -> stdout r <> "" ->
         json_loads (strip (stdout r)) = Json.Raised e ->
         isinstance e ValueError = false -> isinstance e Exception = true ->
         run_function json_dumps json_loads h self code func_name inputs is_async
         = Returns (failure ("Error in sandbox.run_function setup: " +:+ exn_msg e
                             +:+ nl +:+ format_exc h e))).
Proof.
  intros Hs Hr.
  rewrite (run_function_returned json_dumps json_loads h self code func_name inputs
             is_async script r Hs Hr).
  split; [| split].
  - intros Hstr Hval.
    destruct (truthy_opt (error r)) eqn:He.
    { unfold decode_exec_result. rewrite He. eauto. }
    destruct (truthy (stdout r)) eqn:Ht.
    2:{ unfold decode_exec_result. rewrite He, Ht.
        destruct (truthy (stderr r)); eexists; split; reflexivity. }
    apply truthy_true_iff in Ht.
    rewrite (decode_exec_result_stdout json_loads r He Ht).
    destruct (json_loads (strip (stdout r))) as [v|msg|e] eqn:Hd.
    + destruct v as [| | | | |l|d|n]; try (eexists; split; reflexivity).
      destruct (PyDict.get "error" d) as [e|] eqn:Herr.
      * destruct (Hstr d e eq_refl Herr) as [s ->].
        destruct (merge_guest_error r d s Herr) as (out & -> & Hso & _).
        exists out. auto.
      * unfold merge_parsed_output. rewrite Herr.
        destruct (PyDict.get "result" d);
          destruct (negb (PyDict.mem "result" d)); eexists; split; reflexivity.
    + eexists; split; reflexivity.
    + rewrite (Hval e eq_refl). eexists; split; reflexivity.
  - intros d v He Hout Hd Herr Hns.
    rewrite (decode_exec_result_stdout json_loads r He Hout), Hd.
    unfold merge_parsed_output. rewrite Herr.
    destruct v; try reflexivity. now destruct (Hns s).
  - intros e He Hout Hd Hv Hex.
    rewrite (decode_exec_result_stdout json_loads r He Hout), Hd, Hv.
    unfold run_function_except. now rewrite Hv, Hex.
Qed.

(** X4. A guest error that is a string without surrounding whitespace
    always ends up in the outcome's stderr: either the runner's stderr
    already contained it, or it is appended on a line of its own. *)
Theorem guest_error_reaches_stderr (script : string) (r : Result)
  (d : list (string * pyval)) (script_error : string) :
  _generate_function_script json_dumps self code func_name inputs is_async
  = Returns script ->
  execute_script h (runner self) script = Returns r ->
  truthy_opt (error r) = false ->
  stdout r <> "" ->
  json_loads (strip (stdout r)) = Json.Decoded (PDict d) ->
  PyDict.get "error" d = Some (PStr script_error) ->
  strip script_error = script_error ->
  exists out : Result,
    run_function json_dumps json_loads h self code func_name inputs is_async
    = Returns out
    /\ contains script_error (stderr out) = true
    /\ (contains script_error (stderr r) = true -> stderr out = stderr r).
Proof.
  intros Hs Hr He Hout Hd Herr Hstrip.
  rewrite (run_function_returned json_dumps json_loads h self code func_name inputs
             is_async script r Hs Hr).
  rewrite (decode_exec_result_stdout json_loads r He Hout), Hd.
  destruct (merge_guest_error r d script_error Herr) as (out & -> & _ & Hse & _).
  exists out. split; [reflexivity |]. rewrite Hse.
  destruct (contains script_error (stderr r)) eqn:Hc.
  - auto.
  - split; [| discriminate].
    rewrite <- append_assoc. now apply contains_strip_app.
Qed.

(** X5. A decoded dictionary that carries both keys gives both: the
    structured result is stored and the error is set from the guest
    error. *)
Theorem result_and_error_both (script : string) (r : Result)
  (d : list (string * pyval)) (v : pyval) (script_error : string) :
  _generate_function_script json_dumps self code func_name inputs is_async
  = Returns script ->
  execute_script h (runner self) script = Returns r ->
  truthy_opt (error r) = false ->
  stdout r <> "" ->
  json_loads (strip (stdout r)) = Json.Decoded (PDict d) ->
  PyDict.get "result" d = Some v ->
  PyDict.get "error" d = Some (PStr script_error) ->
  exists out : Result,
    run_function json_dumps json_loads h self code func_name inputs is_async
    = Returns out
    /\ result out = Some v
    /\ exists m, error out = Some ("Script Error: " +:+ script_error +:+ m).
Proof.
  intros Hs Hr He Hout Hd Hres Herr.
  rewrite (run_function_returned json_dumps json_loads h self code func_name inputs
             is_async script r Hs Hr).
  rewrite (decode_exec_result_stdout json_loads r He Hout), Hd.
  destruct (merge_guest_error r d script_error Herr)
    as (out & -> & _ & _ & Hro & Heo).
  exists out. rewrite Hres in Hro. eauto.
Qed.

End OutcomeMore.

(** ** Encoding the inputs *)

Section Encoding.

(** X7. Inputs that [json.dumps] rejects never reach a runner.  When
    [json.dumps] raises an [Exception] on the input mapping,
    [run_function] returns the failure outcome, whose stdout is empty and
    whose stderr and error are the same message, whatever the host, the
    sandbox, its runner and the decoder are: for a [TypeError] the message
    is "Inputs dictionary is not JSON serializable: <str(e)>", for a
    [ValueError] (as for an integer beyond the digit limit) it is [str(e)],
    and for any other [Exception] it is the setup error with the
    traceback.  An exception that is no [Exception] propagates. *)
Theorem bad_inputs_never_reach_runner (json_dumps : pyval -> outcome string)
  (d : list (string * pyval)) (e : exn) :
  json_dumps (PDict d) = Raises e ->
  forall (json_loads : string -> Json.decoded) (h : Host) (self : Sandbox)
         (code func_name : string) (is_async : bool),
    run_function json_dumps json_loads h self code func_name (Some d) is_async
    = if isinstance e TypeError then
        Returns (failure ("Inputs dictionary is not JSON serializable: "
                          +:+ exn_msg e))
      else if isinstance e ValueError then Returns (failure (exn_msg e))
      else if isinstance e Exception then
        Returns (failure ("Error in sandbox.run_function setup: " +:+ exn_msg e
                          +:+ nl +:+ format_exc h e))
      else Raises e.
Proof.
  intros Hd json_loads h self code func_name is_async.
  unfold run_function, _generate_function_script, encode_inputs. rewrite Hd.
  destruct (isinstance e TypeError); cbn [bind]; [reflexivity |].
  reflexivity.
Qed.

Lemma bad_inputs_never_reach_runner_witness :
  run_function Demo.json_dumps Demo.json_loads Demo.host
    (Demo.answering (Demo.plain (q "{`result`: 7}") "")) Demo.main_code "main"
    (Some [("f", PObject "function")]) false
  = Returns (failure ("Inputs dictionary is not JSON serializable: "
                      +:+ "Object of type function is not JSON serializable"))
  /\ run_function Demo.json_dumps Demo.json_loads Demo.host Demo.docker_sandbox
       Demo.main_code "main" (Some [("f", PObject "function")]) false
     = Returns (failure ("Inputs dictionary is not JSON serializable: "
                         +:+ "Object of type function is not JSON serializable")).
Proof.
  split;
    exact (bad_inputs_never_reach_runner Demo.json_dumps [("f", PObject "function")]
             (Json.not_serializable "function") eq_refl _ _ _ _ _ _).
Defined.

End Encoding.

(** ** What the artifact contains *)

Section Artifact.

#[local] Arguments String.append _ _ : simpl never.

Lemma contains_app2_l (a b c : string) : contains (a +:+ b) (a +:+ b +:+ c) = true.
Proof. rewrite <- append_assoc. apply contains_app_l. Qed.

Lemma contains_app3_l (a b c d : string) :
  contains (a +:+ b +:+ c) (a +:+ b +:+ c +:+ d) = true.
Proof. rewrite <- !append_assoc. rewrite append_assoc. apply contains_app_l. Qed.

Ltac find_part :=
  rewrite ?append_assoc;
  repeat first [ apply contains_app_l | apply contains_app2_l
               | apply contains_app3_l | apply contains_skip ].

(** X8. The artifact embeds the user's code verbatim in both modes,
    together with the rendered dependency list; in function-call mode it
    also embeds the base64 text of the encoded inputs and the call of the
    named function, wrapped in [asyncio.run] and preceded by the import of
    [asyncio] when the function is asynchronous. *)
Theorem artifact_embeds_code (json_dumps : pyval -> outcome string)
  (self : Sandbox) (code func_name : string)
  (inputs : option (list (string * pyval))) (is_async : bool) (script : string) :
  _generate_function_script json_dumps self code func_name inputs is_async
  = Returns script ->
  (contains code (_generate_script self code) = true
   /\ contains (spec_dependency_list (dependencies self)) (_generate_script self code)
      = true)
  /\ contains code script = true
  /\ contains (spec_dependency_list (dependencies self)) script = true
  /\ contains (func_name +:+ "(**inputs_dict)") script = true
  /\ (exists json,
        encode_inputs json_dumps inputs = Returns json
        /\ contains (Base64.b64encode (Base64.utf8 json)) script = true)
  /\ (is_async = true ->
      contains ("asyncio.run(" +:+ func_name +:+ "(**inputs_dict))") script = true
      /\ contains "import asyncio" script = true).
Proof.
  unfold _generate_function_script, _generate_script.
  rewrite format_dependencies_rendering.
  destruct (encode_inputs json_dumps inputs) as [json|e]; cbn [bind];
    [| discriminate].
  intros [= <-].
  unfold script_template, function_script_template.
  cbn [unlines map String.concat].
  split; [split |].
  - find_part.
  - find_part.
  - split; [find_part |].
    split; [find_part |].
    split; [destruct is_async; find_part |].
    split; [exists json; split; [reflexivity | find_part] |].
    intros ->. split.
    + rewrite ?append_assoc.
      match goal with
      | |- context [ "(**inputs_dict)" +:+ ")" +:+ ?X ] =>
          change ("(**inputs_dict)" +:+ ")" +:+ X) with ("(**inputs_dict))" +:+ X)
      end.
      find_part.
    + unfold join. cbn [String.concat app]. find_part.
Qed.

Lemma artifact_embeds_code_witness :
  contains Demo.main_code Demo.main_script = true
  /\ contains "main(**inputs_dict)" Demo.main_script = true.
Proof.
  pose proof (artifact_embeds_code Demo.json_dumps (Demo.answering (Demo.plain "" ""))
                Demo.main_code "main" None false Demo.main_script) as H.
  destruct H as (_ & Hcode & _ & Hcall & _); [vm_compute; reflexivity |].
  split; [exact Hcode | exact Hcall].
Defined.

End Artifact.

(** ** More on the process backend *)

Section ProcessBackendMore.





End ProcessBackendMore.

(** ** More on the container backend *)

Section ContainerBackendMore.



Lemma get_merge_settings_None (settings : list (string * setting))
  (container_kwargs : list (string * pyval)) (k : string) :
  PyDict.get k container_kwargs = None ->
  PyDict.get k (merge_settings settings container_kwargs) = PyDict.get k settings.
Proof.
  unfold merge_settings. revert settings.
  induction container_kwargs as [|[k' v'] kw IH]; intros settings; cbn [fold_left];
    [reflexivity |].
  cbn [PyDict.get fst snd]. destruct (String.eqb_spec k k') as [->|Hne];
    [discriminate |].
  intros Hk. rewrite (IH _ Hk). apply get_set_ne. congruence.
Qed.

Lemma get_merge_settings_Some (settings : list (string * setting))
  (container_kwargs : list (string * pyval)) (k : string) (v : pyval) :
  NoDup (map fst container_kwargs) ->
  PyDict.get k container_kwargs = Some v ->
  PyDict.get k (merge_settings settings container_kwargs) = Some (SVal v).
Proof.
  unfold merge_settings. revert settings.
  induction container_kwargs as [|[k' v'] kw IH]; intros settings; cbn [fold_left];
    [discriminate |].
  cbn [PyDict.get map fst snd]. intros Hnd. inversion Hnd as [|? ? Hnotin Hnd']; subst.
  destruct (String.eqb_spec k k') as [->|Hne].
  - intros [= ->].
    assert (Hn : ~ In k' (map fst kw)) by (rewrite <- list_elem_of_In; exact Hnotin).
    pose proof (get_merge_settings_None (PyDict.set k' (SVal v) settings) kw k'
                  (proj2 (get_None_not_key k' kw) Hn)) as H.
    unfold merge_settings in H. rewrite H. apply get_set_eq.
  - intros Hk. now apply IH.
Qed.

(** X13. Network isolation of the container.  With network access not
    allowed, the container is run with [network_mode] "none" when
    [container_kwargs] has no [network_mode] or has [None] for it; a
    [network_mode] given in [container_kwargs] is used as it is, even
    without network access allowed.  With network access allowed and no
    [network_mode] given, none is set. *)
Theorem network_mode_of_run_settings (self : DockerSandboxRunner) :
  (allow_network self = false ->
   network_mode_is_none (container_kwargs self) = true ->
   PyDict.get "network_mode" (run_settings self) = Some (SVal (PStr "none")))
  /\ (forall v : pyval,
         NoDup (map fst (container_kwargs self)) ->
         PyDict.get "network_mode" (container_kwargs self) = Some v ->
         v <> PNone ->
         PyDict.get "network_mode" (run_settings self) = Some (SVal v))
  /\ (allow_network self = true ->
      PyDict.get "network_mode" (container_kwargs self) = None ->
      PyDict.get "network_mode" (run_settings self) = None).
Proof.
  unfold run_settings. split; [| split].
  - intros -> ->. cbn [negb andb]. apply get_set_eq.
  - intros v Hnd Hv Hnn.
    assert (Hnone : network_mode_is_none (container_kwargs self) = false).
    { unfold network_mode_is_none. rewrite Hv. destruct v; congruence. }
    rewrite Hnone, andb_false_r. now apply get_merge_settings_Some.
  - intros -> Hk. cbn [negb andb].
    rewrite (get_merge_settings_None _ _ _ Hk). reflexivity.
Qed.

Lemma network_mode_of_run_settings_witness :
  PyDict.get "network_mode" (run_settings Demo.docker_runner)
  = Some (SVal (PStr "none"))
  /\ PyDict.get "network_mode" (run_settings More.host_network_runner)
     = Some (SVal (PStr "host")).
Proof.
  split.
  - exact (proj1 (network_mode_of_run_settings Demo.docker_runner) eq_refl eq_refl).
  - refine (proj1 (proj2 (network_mode_of_run_settings More.host_network_runner))
              (PStr "host") _ eq_refl _); [| discriminate].
    apply NoDup_singleton.
Defined.

(** X14. The hardening of the container holds unless [container_kwargs]
    replaces it: without a [cap_drop], [security_opt] or [environment] entry
    there, the container is run with all capabilities dropped, with
    "no-new-privileges" and with the runner's filtered environment; an
    entry given there wins. *)
Theorem hardening_of_run_settings (self : DockerSandboxRunner) :
  (PyDict.get "cap_drop" (container_kwargs self) = None ->
   PyDict.get "cap_drop" (run_settings self) = Some (SVal (PList [PStr "ALL"])))
  /\ (PyDict.get "security_opt" (container_kwargs self) = None ->
      PyDict.get "security_opt" (run_settings self)
      = Some (SVal (PList [PStr "no-new-privileges"])))
  /\ (PyDict.get "environment" (container_kwargs self) = None ->
      PyDict.get "environment" (run_settings self)
      = Some (SEnv (dk_environment self)))
  /\ (forall (k : string) (v : pyval),
         k <> "network_mode" ->
         NoDup (map fst (container_kwargs self)) ->
         PyDict.get k (container_kwargs self) = Some v ->
         PyDict.get k (run_settings self) = Some (SVal v)).
Proof.
  assert (Hlast : forall k d,
             k <> "network_mode" ->
             PyDict.get k
               (if negb (allow_network self)
                   && network_mode_is_none (container_kwargs self)
                then PyDict.set "network_mode" (SVal (PStr "none")) d else d)
             = PyDict.get k d).
  { intros k d Hk. destruct (_ && _); [| reflexivity].
    apply get_set_ne. congruence. }
  unfold run_settings.
  split; [| split; [| split]].
  - intros Hk. rewrite Hlast by discriminate.
    rewrite (get_merge_settings_None _ _ _ Hk).
    now destruct (negb (allow_network self)).
  - intros Hk. rewrite Hlast by discriminate.
    rewrite (get_merge_settings_None _ _ _ Hk).
    now destruct (negb (allow_network self)).
  - intros Hk. rewrite Hlast by discriminate.
    rewrite (get_merge_settings_None _ _ _ Hk).
    now destruct (negb (allow_network self)).
  - intros k v Hk Hnd Hv. rewrite Hlast by exact Hk.
    now apply get_merge_settings_Some.
Qed.

Lemma hardening_of_run_settings_witness :
  PyDict.get "cap_drop" (run_settings More.host_network_runner)
  = Some (SVal (PList [PStr "ALL"]))
  /\ PyDict.get "security_opt" (run_settings More.host_network_runner)
     = Some (SVal (PList [PStr "no-new-privileges"])).
Proof.
  split.
  - exact (proj1 (hardening_of_run_settings More.host_network_runner) eq_refl).
  - exact (proj1 (proj2 (hardening_of_run_settings More.host_network_runner)) eq_refl).
Defined.

End ContainerBackendMore.

(** ** More on building and using a sandbox *)

Section SandboxMore.

(** X15. A sandbox built without [runner_kwargs] holds the runner for its
    runner type, with the timeout (and, for the container backend, the
    network flag and the default image) as given, and an environment that
    never leaves the allow-list in force: the given list when there is one,
    else the default of the backend.  Allowed variables of the supplied map
    keep their value. *)
Theorem sandbox_environment_within_allow_list (h : Host)
  (deps : option Dependencies) (config : option (list (string * pyval)))
  (runner_type : string) (environment : option (gmap string string))
  (timeout : option pyfloat) (network : bool)
  (allowed_env_vars : option (list string)) (sb : Sandbox) :
  Sandbox_init h deps config runner_type environment timeout network
    allowed_env_vars None = Returns sb ->
  dependencies sb = default [] deps
  /\ match runner sb with
     | Subprocess r =>
         runner_type = "subprocess" /\ sp_timeout r = timeout
         /\ dom (sp_environment r)
            ⊆ from_option list_to_set DEFAULT_ALLOWED_ENV_VARS allowed_env_vars
         /\ (forall k v : string,
                default ∅ environment !! k = Some v ->
                k ∈ from_option list_to_set DEFAULT_ALLOWED_ENV_VARS allowed_env_vars ->
                sp_environment r !! k = Some v)
     | Docker r =>
         runner_type = "docker" /\ dk_timeout r = timeout
         /\ allow_network r = network
         /\ image r = _DEFAULT_IMAGE
         /\ dom (dk_environment r)
            ⊆ from_option list_to_set DEFAULT_ALLOWED_ENV_VARS_DOCKER allowed_env_vars
         /\ (forall k v : string,
                default ∅ environment !! k = Some v ->
                k ∈ from_option list_to_set DEFAULT_ALLOWED_ENV_VARS_DOCKER
                      allowed_env_vars ->
                dk_environment r !! k = Some v)
     | Custom _ => False
     end.
Proof.
  unfold Sandbox_init, _RUNNER_CLASSES. cbn [existsb orb].
  destruct (String.eqb_spec runner_type "docker") as [->|Hnd].
  - cbn [String.eqb Ascii.eqb Bool.eqb orb negb andb from_option id fold_left
           kw_mem existsb kw_name app construct_runner].
    unfold construct_runner.
    cbn [String.eqb Ascii.eqb Bool.eqb bind_all docker_bind docker_defaults bind
           da_image da_environment da_timeout da_allow_network da_allowed_env_vars
           da_docker_client_kwargs da_container_kwargs].
    intros [= <-]. cbn [dependencies runner]. split; [reflexivity |].
    cbn [dk_timeout allow_network image dk_environment DockerSandboxRunner_init
           base_environment from_option id].
    repeat (split; [reflexivity |]).
    unfold docker_filtered_env. cbn [from_option id].
    assert (Hset : match allowed_env_vars with
                   | Some l => list_to_set l
                   | None => DEFAULT_ALLOWED_ENV_VARS_DOCKER
                   end
                   = from_option list_to_set DEFAULT_ALLOWED_ENV_VARS_DOCKER
                       allowed_env_vars) by now destruct allowed_env_vars.
    rewrite Hset. split.
    + intros k Hk. now apply elem_of_dom_filter_allowed in Hk.
    + intros k v Hk Ha. now apply filter_allowed_lookup_Some.
  - rewrite orb_false_r.
    destruct (String.eqb_spec runner_type "subprocess") as [->|Hns];
      cbn [negb]; [| discriminate].
    cbn [String.eqb Ascii.eqb Bool.eqb orb negb andb from_option id fold_left].
    unfold construct_runner.
    cbn [String.eqb Ascii.eqb Bool.eqb bind_all subprocess_bind subprocess_defaults
           bind sa_environment sa_timeout sa_allowed_env_vars sa_cpu_time_limit
           sa_memory_limit].
    unfold SubprocessSandboxRunner_init.
    destruct (negb (truthy_opt (which h "uv"))); cbn [bind]; [discriminate |].
    intros [= <-]. cbn [dependencies runner]. split; [reflexivity |].
    cbn [sp_timeout sp_environment base_environment from_option id].
    repeat (split; [reflexivity |]).
    assert (Hset : match allowed_env_vars with
                   | Some l => list_to_set l
                   | None => DEFAULT_ALLOWED_ENV_VARS
                   end
                   = from_option list_to_set DEFAULT_ALLOWED_ENV_VARS
                       allowed_env_vars) by now destruct allowed_env_vars.
    rewrite Hset. split.
    + intros k Hk. now apply elem_of_dom_subprocess_filtered_env in Hk.
    + intros k v Hk Ha. now apply subprocess_filtered_env_keeps.
Qed.

Lemma sandbox_environment_within_allow_list_witness :
  Sandbox_init Demo.host (Some [("numpy", DepStr ">=1.20")]) None "docker"
    Demo.user_env None false None None = Returns More.built_docker_sandbox
  /\ dom (dk_environment Demo.docker_runner) ⊆ DEFAULT_ALLOWED_ENV_VARS_DOCKER.
Proof.
  split; [reflexivity |].
  pose proof (sandbox_environment_within_allow_list Demo.host
                (Some [("numpy", DepStr ">=1.20")]) None "docker" Demo.user_env None
                false None More.built_docker_sandbox eq_refl) as [_ H].
  cbn [runner More.built_docker_sandbox] in H.
  destruct H as (_ & _ & _ & _ & Hsub & _). exact Hsub.
Defined.











Example self_keyword_message :
  Sandbox_init Demo.host None None "subprocess" None (Some "60.0") false None
    (Some [KwOther "self"])
  = Raises (Exn RuntimeError
              "Failed to initialize runner 'subprocess': SubprocessSandboxRunner.__init__() got multiple values for argument 'self'").
Proof. vm_compute. reflexivity. Qed.

(** X17. What the container backend raises comes back through the manager
    as an outcome: for a missing image or container [run] and
    [run_function] return the failure outcome whose stderr and error are
    "Error in sandbox.run setup: Docker image/container error: ..." (or
    "run_function setup"), followed by the traceback, and whose stdout is
    empty; a daemon failure gives the same with "Docker operation failed:
    ...". *)
Theorem docker_failure_through_manager (json_dumps : pyval -> outcome string)
  (json_loads : string -> Json.decoded)
  (h : Host) (self : Sandbox) (r : DockerSandboxRunner) (code func_name : string)
  (inputs : option (list (string * pyval))) (is_async : bool)
  (e : exn) (prefix : string) :
  runner self = Docker r ->
  ((isinstance e ImageNotFound = true \/ isinstance e NotFound = true)
   /\ prefix = "Docker image/container error: "
   \/ (isinstance e NotFound = false /\ isinstance e DockerException = true)
      /\ prefix = "Docker operation failed: ") ->
  (docker_attempt (docker_daemon h r (_generate_script self code))
     {| stdout := ""; stderr := ""; result := None; error := None |}
   = Raises e ->
   run h self code
   = Returns (failure ("Error in sandbox.run setup: " +:+ prefix +:+ exn_msg e +:+ nl
                       +:+ format_exc h (Exn RuntimeError (prefix +:+ exn_msg e)))))
  /\ (forall script : string,
         _generate_function_script json_dumps self code func_name inputs is_async
         = Returns script ->
         docker_attempt (docker_daemon h r script)
           {| stdout := ""; stderr := ""; result := None; error := None |}
         = Raises e ->
         run_function json_dumps json_loads h self code func_name inputs is_async
         = Returns (failure ("Error in sandbox.run_function setup: " +:+ prefix
                             +:+ exn_msg e +:+ nl
                             +:+ format_exc h (Exn RuntimeError (prefix +:+ exn_msg e))))).
Proof.
  intros Hrunner Hcls.
  assert (Hexec : forall script,
             docker_attempt (docker_daemon h r script)
               {| stdout := ""; stderr := ""; result := None; error := None |}
             = Raises e ->
             execute_script h (runner self) script
             = Raises (Exn RuntimeError (prefix +:+ exn_msg e))).
  { intros script Hraise. rewrite Hrunner. cbn [execute_script].
    rewrite (docker_execute_script_raised h r script e Hraise).
    destruct Hcls as [[Hc ->]|[[Hn Hd] ->]].
    - assert (Hnf : isinstance e NotFound = true)
        by (destruct Hc as [Hi|Hnf]; [now apply ImageNotFound_is_NotFound | exact Hnf]).
      now rewrite Hnf.
    - now rewrite Hn, Hd. }
  split.
  - intros Hraise. rewrite run_of_execute_script, (Hexec _ Hraise). cbn [exn_msg].
    change (isinstance (Exn RuntimeError _) Exception) with true. cbv iota.
    now rewrite append_assoc.
  - intros script Hs Hraise.
    rewrite (run_function_runner_raised json_dumps json_loads h self code func_name
               inputs is_async script _ Hs (Hexec _ Hraise)).
    unfold run_function_except. cbn [exn_msg].
    change (isinstance (Exn RuntimeError _) ValueError) with false.
    change (isinstance (Exn RuntimeError _) Exception) with true. cbv iota.
    now rewrite append_assoc.
Qed.

Lemma docker_failure_through_manager_witness :
  run More.host_without_image Demo.docker_sandbox Demo.main_code
  = Returns
      (failure ("Error in sandbox.run setup: Docker image/container error: "
                +:+ "no such image" +:+ nl
                +:+ format_exc More.host_without_image
                      (Exn RuntimeError
                         ("Docker image/container error: " +:+ "no such image")))).
Proof.
  exact (proj1 (docker_failure_through_manager Demo.json_dumps Demo.json_loads
                  More.host_without_image
                  Demo.docker_sandbox Demo.docker_runner Demo.main_code "main" None
                  false (Exn ImageNotFound "no such image")
                  "Docker image/container error: "
                  eq_refl (or_introl (conj (or_introl eq_refl) eq_refl)))
           eq_refl).
Defined.

End SandboxMore.

(** ** More outcomes of [run_function] on concrete outputs *)

Section OutcomeMoreExamples.
Import Demo.

Lemma no_stdout_reports_stderr_witness :
  run_function json_dumps json_loads host (answering More.only_stderr) main_code
    "main" None false
  = Returns (set_error More.only_stderr
               ("Execution failed (no stdout). Stderr: "
                +:+ slice_to 1000 (stderr More.only_stderr))).
Proof.
  refine (proj1 (no_stdout_reports_stderr json_dumps json_loads host
                   (answering More.only_stderr)
                   main_code "main" None false main_script More.only_stderr
                   (script_of_answering _) eq_refl eq_refl eq_refl _)).
  discriminate.
Defined.

Lemma success_means_result_witness :
  exists (d : list (string * pyval)) (v : pyval),
    json_loads (strip (stdout (plain (q "{`result`: 7}") "")))
    = Json.Decoded (PDict d)
    /\ PyDict.get "result" d = Some v
    /\ PyDict.get "error" d = None
    /\ set_result (plain (q "{`result`: 7}") "") (PInt 7)
       = set_result (plain (q "{`result`: 7}") "") v.
Proof.
  apply (success_means_result json_dumps json_loads host
           (answering (plain (q "{`result`: 7}") "")) main_code "main" None false
           main_script (plain (q "{`result`: 7}") "")
           (set_result (plain (q "{`result`: 7}") "") (PInt 7))
           (script_of_answering _) eq_refl eq_refl).
  - vm_compute. discriminate.
  - vm_compute. reflexivity.
  - reflexivity.
Defined.

Lemma stdout_kept_witness :
  (exists out : Result,
     run_function json_dumps json_loads host (answering guest_error) main_code "main"
       None false
     = Returns out
     /\ stdout out = stdout guest_error)
  /\ run_function json_dumps More.loads_recursion_limit host
       (answering (plain "[[[[" "")) main_code "main" None false
     = Returns (failure ("Error in sandbox.run_function setup: "
                         +:+ exn_msg More.recursion_limit +:+ nl
                         +:+ format_exc host More.recursion_limit)).
Proof.
  split.
  - apply (proj1 (stdout_kept json_dumps json_loads host (answering guest_error)
                    main_code "main" None false main_script guest_error
                    (script_of_answering _) eq_refl)).
    + intros d v Hd. vm_compute in Hd. injection Hd as <-.
      vm_compute. intros [= <-]. eauto.
    + intros e He. vm_compute in He. discriminate He.
  - refine (proj2 (proj2 (stdout_kept json_dumps More.loads_recursion_limit host
                            (answering (plain "[[[[" "")) main_code "main" None false
                            main_script (plain "[[[[" "") (script_of_answering _)
                            eq_refl))
              More.recursion_limit eq_refl _ eq_refl eq_refl eq_refl).
    discriminate.
Defined.

Lemma guest_error_reaches_stderr_witness :
  exists out : Result,
    run_function json_dumps json_loads host (answering guest_error) main_code "main"
      None false
    = Returns out
    /\ contains "ab" (stderr out) = true
    /\ (contains "ab" (stderr guest_error) = true -> stderr out = stderr guest_error).
Proof.
  refine (guest_error_reaches_stderr json_dumps json_loads host (answering guest_error)
            main_code "main" None false main_script guest_error
            [("error", PStr "ab")] "ab" (script_of_answering _) eq_refl eq_refl
            _ _ eq_refl eq_refl).
  - vm_compute. discriminate.
  - vm_compute. reflexivity.
Defined.

Lemma result_and_error_both_witness :
  exists out : Result,
    run_function json_dumps json_loads host (answering More.both_keys) main_code
      "main" None false
    = Returns out
    /\ result out = Some (PInt 1)
    /\ exists m, error out = Some ("Script Error: " +:+ "late failure" +:+ m).
Proof.
  refine (result_and_error_both json_dumps json_loads host (answering More.both_keys)
            main_code "main" None false main_script More.both_keys
            [("result", PInt 1); ("error", PStr "late failure")] (PInt 1)
            "late failure" (script_of_answering _) eq_refl eq_refl _ _ eq_refl eq_refl).
  - vm_compute. discriminate.
  - vm_compute. reflexivity.
Defined.

End OutcomeMoreExamples.

(** ** What constructing a sandbox asks of the host *)

Section HostUse.

(** X18. A sandbox for the container backend without [runner_kwargs] is
    always constructed: [Sandbox.__init__] does not consult the daemon, so
    a missing image or an unreachable daemon shows only at
    [execute_script]. *)
Theorem docker_sandbox_always_built (h : Host) (deps : option Dependencies)
  (config : option (list (string * pyval)))
  (environment : option (gmap string string)) (timeout : option pyfloat)
  (network : bool) (allowed_env_vars : option (list string)) :
  exists r : DockerSandboxRunner,
    Sandbox_init h deps config "docker" environment timeout network
      allowed_env_vars None
    = Returns {| dependencies := default [] deps; settings := default [] config;
                 runner := Docker r |}
    /\ allow_network r = network /\ dk_timeout r = timeout.
Proof.
  eexists. unfold Sandbox_init, _RUNNER_CLASSES, construct_runner.
  cbn [existsb String.eqb Ascii.eqb Bool.eqb orb negb andb from_option id fold_left
         kw_mem kw_name app bind_all docker_bind docker_defaults bind
         da_image da_environment da_timeout da_allow_network da_allowed_env_vars
         da_docker_client_kwargs da_container_kwargs].
  split; [reflexivity |]. split; reflexivity.
Qed.

End HostUse.


(** ** The shape of a backend outcome *)

Section BackendOutcome.

(** X20. The environment of the host process reaches the process runner
    only through the six boot variables: two hosts that agree on
    [shutil.which("uv")] and on PATH, HOME, USER, TMPDIR, TEMP and TMP build
    the same runner, whatever else their environments hold. *)
Theorem host_environment_use (h h' : Host)
  (environment : option (gmap string string)) (timeout : option pyfloat)
  (allowed_env_vars : option (gset string))
  (cpu_time_limit memory_limit : option Z) :
  which h "uv" = which h' "uv" ->
  (forall k : string, k ∈ boot_defaults -> os_environ h !! k = os_environ h' !! k) ->
  SubprocessSandboxRunner_init h environment timeout allowed_env_vars
    cpu_time_limit memory_limit
  = SubprocessSandboxRunner_init h' environment timeout allowed_env_vars
      cpu_time_limit memory_limit.
Proof.
  intros Hw He.
  assert (Hk : forall k, k ∈ boot_defaults -> os_environ h !! k = os_environ h' !! k)
    by exact He.
  unfold SubprocessSandboxRunner_init, subprocess_filtered_env, inject_default,
    inject_temp. cbn [fold_left].
  rewrite Hw.
  rewrite !(Hk "PATH"), !(Hk "HOME"), !(Hk "USER"), !(Hk "TMPDIR"), !(Hk "TEMP"),
    !(Hk "TMP") by (unfold boot_defaults; set_solver).
  reflexivity.
Qed.

Lemma host_environment_use_witness :
  SubprocessSandboxRunner_init Demo.host_with_uv Demo.user_env (Some "60.0") None
    None None
  = SubprocessSandboxRunner_init More.host_with_secret Demo.user_env (Some "60.0")
      None None None.
Proof.
  apply (host_environment_use Demo.host_with_uv More.host_with_secret);
    [reflexivity |].
  intros k Hk. unfold boot_defaults in Hk.
  repeat (apply elem_of_union in Hk as [Hk|Hk]);
    apply elem_of_singleton in Hk; subst k; vm_compute; reflexivity.
Defined.

(** X21. What either runner of the package returns carries no structured
    result, and its error is [None] or a non-empty message: for these
    outcomes an error is set exactly when it is truthy. *)
Theorem backend_outcome_shape (h : Host) (runner : SandboxRunner) (script : string)
  (r : Result) :
  (forall execute, runner <> Custom execute) ->
  execute_script h runner script = Returns r ->
  result r = None
  /\ error r <> Some ""
  /\ (error r <> None <-> truthy_opt (error r) = true).
Proof.
  intros Hpkg Hr.
  assert (Hshape : result r = None /\ error r <> Some "").
  { destruct runner as [sp|dk|f]; cbn [execute_script] in Hr.
    - exact (subprocess_outcome_shape h sp script r Hr).
    - exact (docker_outcome_shape h dk script r Hr).
    - now destruct (Hpkg f). }
  destruct Hshape as [Hres Herr]. repeat split; try assumption.
  - destruct (error r) as [[|c m]|]; cbn [truthy_opt truthy]; congruence.
  - destruct (error r); [discriminate | discriminate].
Qed.

Lemma backend_outcome_shape_witness :
  result {| stdout := ""; stderr := "boom" +:+ nl; result := None;
            error := Some "Subprocess failed (exit code 1). Stderr: boom" |} = None
  /\ error {| stdout := ""; stderr := "boom" +:+ nl; result := None;
              error := Some "Subprocess failed (exit code 1). Stderr: boom" |}
     <> Some "".
Proof.
  pose proof (backend_outcome_shape Demo.host (Subprocess Demo.subprocess_runner)
                "exit(1)"
                {| stdout := ""; stderr := "boom" +:+ nl; result := None;
                   error := Some "Subprocess failed (exit code 1). Stderr: boom" |})
    as H.
  destruct H as (Hres & Herr & _); [discriminate | reflexivity |].
  split; assumption.
Defined.

End BackendOutcome.

